(** * Lecturer sentiment analyzer: metrics, classification and feedback

    A shallow embedding of [lecturer_sentiment_analyzer.py] (class
    [LecturerSentimentAnalyzer]) and the properties of its metrics engine,
    sentiment classification, feedback generator, live session and error
    paths, with the upload filter [allowed_file] of [main.py].

    Modelling conventions.
    - A Python [str] is a [string] holding its UTF-8 encoding, so the emoji
      of the feedback lines appear as bytes.  [str.lower], [str.isalpha] and
      the blanks of [split] and of the per-token tests are the ASCII ones;
      the length test of [analyze_sentiment] counts code points and trims
      the Unicode blanks, as [len(text.strip())] does.
    - A Python [float] is read as the rational number it denotes ([Q]), a
      decimal literal denotes its decimal value, and arithmetic is exact.
      Of a computed float the theorems state the formula the code writes,
      bounds and orderings, which rounding to doubles preserves.  An [int]
      that counts things is a [nat].
    - The collaborators the class calls ([word_tokenize], [TextBlob],
      [os.path.exists], the speech recognizer) are variables of a section;
      a call that may raise returns an [option] or an outcome type.
    - [self.results] is a record; the dictionaries [{}] that the constructor
      stores under ['sentiment'] and ['metrics'] are [None]. *)

From Stdlib Require Import Bool List Arith ZArith QArith Qminmax Qabs Lia.
From Stdlib Require Import Ascii String.
From Stdlib Require Import Numbers.DecimalString.
Import ListNotations.

Local Open Scope string_scope.
Local Open Scope Q_scope.

(** ** Numbers *)

Module PyNum.

(** [a < b] and [a > b] on floats, as booleans. *)
Definition ltb (a b : Q) : bool := negb (Qle_bool b a).
Definition gtb (a b : Q) : bool := ltb b a.

(** [max(a, b)] of Python: the first argument unless the second is larger. *)
Definition max (a b : Q) : Q := if gtb b a then b else a.

(** [float(n)] of a count. *)
Definition of_nat (n : nat) : Q := inject_Z (Z.of_nat n).

(** [max(1, n)] on counts. *)
Definition max1 (n : nat) : nat := if (1 <? n)%nat then n else 1%nat.

End PyNum.

(** ** Strings *)

Module PyStr.

Definition code (c : ascii) : nat := nat_of_ascii c.

(** [c.lower()] on one character: [A-Z] move to [a-z]. *)
Definition lower_char (c : ascii) : ascii :=
  if ((65 <=? code c) && (code c <=? 90))%nat
  then ascii_of_nat (code c + 32) else c.

(** [s.lower()] *)
Fixpoint lower (s : string) : string :=
  match s with
  | EmptyString => EmptyString
  | String c s' => String (lower_char c) (lower s')
  end.

(** The characters [str.strip()] and [str.split()] treat as blank. *)
Definition is_space (c : ascii) : bool :=
  (((9 <=? code c) && (code c <=? 13)) || ((28 <=? code c) && (code c <=? 32)))%nat.

Definition is_alpha_char (c : ascii) : bool :=
  (((65 <=? code c) && (code c <=? 90)) || ((97 <=? code c) && (code c <=? 122)))%nat.

Fixpoint all_chars (p : ascii -> bool) (s : string) : bool :=
  match s with
  | EmptyString => true
  | String c s' => p c && all_chars p s'
  end.

Definition is_empty (s : string) : bool :=
  match s with EmptyString => true | _ => false end.

(** [s.isalpha()]: at least one character, and all of them letters. *)
Definition isalpha (s : string) : bool := negb (is_empty s) && all_chars is_alpha_char s.

(** Membership of a character in the argument of [strip]. *)
Fixpoint char_in (c : ascii) (chars : string) : bool :=
  match chars with
  | EmptyString => false
  | String d r => Ascii.eqb c d || char_in c r
  end.

(** [s.lstrip(...)], [s.rstrip(...)] and [s.strip(...)] for a character
    class [p]. *)
Fixpoint lstrip (p : ascii -> bool) (s : string) : string :=
  match s with
  | EmptyString => EmptyString
  | String c s' => if p c then lstrip p s' else s
  end.

Fixpoint rstrip (p : ascii -> bool) (s : string) : string :=
  match s with
  | EmptyString => EmptyString
  | String c s' =>
      let r := rstrip p s' in
      if is_empty r && p c then EmptyString else String c r
  end.

Definition strip (p : ascii -> bool) (s : string) : string := rstrip p (lstrip p s).

(** [s.strip()] *)
Definition strip_ws (s : string) : string := strip is_space s.

(** [s.strip(chars)] *)
Definition strip_chars (chars s : string) : string := strip (fun c => char_in c chars) s.

(** [s.split()]: the maximal runs of non-blank characters. *)
Fixpoint split_ws_from (cur : string) (s : string) : list string :=
  match s with
  | EmptyString => if is_empty cur then [] else [cur]
  | String c s' =>
      if is_space c
      then (if is_empty cur then split_ws_from EmptyString s'
            else cur :: split_ws_from EmptyString s')
      else split_ws_from (cur ++ String c EmptyString) s'
  end.

Definition split_ws (s : string) : list string := split_ws_from EmptyString s.

(** [s.split(sep)] for a one-character separator: always at least one piece. *)
Fixpoint split_on_from (sep : ascii) (cur : string) (s : string) : list string :=
  match s with
  | EmptyString => [cur]
  | String c s' =>
      if Ascii.eqb c sep then cur :: split_on_from sep EmptyString s'
      else split_on_from sep (cur ++ String c EmptyString) s'
  end.

Definition split_on (sep : ascii) (s : string) : list string :=
  split_on_from sep EmptyString s.

(** [s.count(c)] for a one-character argument. *)
Fixpoint count_char (c : ascii) (s : string) : nat :=
  match s with
  | EmptyString => 0
  | String d s' => (if Ascii.eqb d c then 1 else 0) + count_char c s'
  end.

(** [x in xs] for a list of strings. *)
Definition mem (x : string) (xs : list string) : bool :=
  existsb (String.eqb x) xs.

(** [len(set(xs))]: the number of distinct elements. *)
Definition distinct (xs : list string) : nat :=
  List.length (nodup string_dec xs).

(** [needle in hay] on strings. *)
Fixpoint contains (needle hay : string) : bool :=
  prefix needle hay ||
  match hay with
  | EmptyString => false
  | String _ h' => contains needle h'
  end.

(** Occurrence of one character. *)
Definition occurs (c : ascii) (s : string) : bool := char_in c s.

(** The code points of a text, which is held in UTF-8: a byte below 192
    stands alone, a lead byte takes one, two or three continuation bytes
    with it. *)
Fixpoint code_points (s : string) : list N :=
  match s with
  | EmptyString => []
  | String b s1 =>
      let n := N_of_ascii b in
      if (n <? 192)%N then n :: code_points s1
      else if (n <? 224)%N then
        match s1 with
        | String b2 s2 =>
            ((n - 192) * 64 + (N_of_ascii b2 - 128))%N :: code_points s2
        | EmptyString => [n]
        end
      else if (n <? 240)%N then
        match s1 with
        | String b2 (String b3 s3) =>
            ((n - 224) * 4096 + (N_of_ascii b2 - 128) * 64
             + (N_of_ascii b3 - 128))%N :: code_points s3
        | _ => [n]
        end
      else
        match s1 with
        | String b2 (String b3 (String b4 s4)) =>
            ((n - 240) * 262144 + (N_of_ascii b2 - 128) * 4096
             + (N_of_ascii b3 - 128) * 64 + (N_of_ascii b4 - 128))%N
              :: code_points s4
        | _ => [n]
        end
  end.

(** [c.isspace()] on a code point: the blanks [str.strip()] removes. *)
Definition is_space_point (n : N) : bool :=
  (((9 <=? n) && (n <=? 13)) || ((28 <=? n) && (n <=? 32))
   || (n =? 133) || (n =? 160) || (n =? 5760)
   || ((8192 <=? n) && (n <=? 8202))
   || (n =? 8232) || (n =? 8233) || (n =? 8239) || (n =? 8287)
   || (n =? 12288))%N.

Fixpoint lstrip_points (ps : list N) : list N :=
  match ps with
  | [] => []
  | n :: rest => if is_space_point n then lstrip_points rest else ps
  end.

Fixpoint rstrip_points (ps : list N) : list N :=
  match ps with
  | [] => []
  | n :: rest =>
      match rstrip_points rest with
      | [] => if is_space_point n then [] else [n]
      | kept => n :: kept
      end
  end.

(** [len(s.strip())]: the code points left once the blanks at both ends
    are gone. *)
Definition stripped_len (s : string) : nat :=
  List.length (rstrip_points (lstrip_points (code_points s))).

End PyStr.

(** ** Number formatting in f-strings *)

Module PyFmt.

Import PyStr.

(** [str(n)] of a non-negative integer. *)
Definition of_N (n : N) : string := NilEmpty.string_of_uint (N.to_uint n).
Definition of_count (n : nat) : string := of_N (N.of_nat n).

(** Nearest integer of a non-negative rational, ties to even. *)
Definition round_half_even (q : Q) : Z :=
  let n := Qnum q in
  let d := Zpos (Qden q) in
  let fl := (n / d)%Z in
  match (2 * (n mod d) ?= d)%Z with
  | Lt => fl
  | Gt => (fl + 1)%Z
  | Eq => if Z.even fl then fl else (fl + 1)%Z
  end.

Definition sign (q : Q) : string := if PyNum.ltb q 0 then "-" else "".

(** [f"{q:.0f}"] *)
Definition fixed0 (q : Q) : string :=
  sign q ++ of_N (Z.to_N (round_half_even (Qabs q))).

(** [f"{q:.1f}"] *)
Definition fixed1 (q : Q) : string :=
  let n := round_half_even (Qabs q * 10) in
  sign q ++ of_N (Z.to_N (n / 10)) ++ "." ++ of_N (Z.to_N (n mod 10)).

(** The characters a formatted number is made of. *)
Definition plain (c : ascii) : bool := char_in c "0123456789.-".

End PyFmt.

(** ** The result record *)

Inductive Category : Type := Positive | Negative | Neutral.

(** [self.results['sentiment']] *)
Record Sentiment : Type := mkSentiment {
  polarity : Q;
  subjectivity : Q;
  category : Category
}.

(** [self.results['metrics']] *)
Record Metrics : Type := mkMetrics {
  word_count : nat;
  speaking_rate : Q;
  filler_count : nat;
  filler_ratio : Q;
  avg_sentence_length : Q;
  vocabulary_richness : Q;
  duration_seconds : Q;
  sentence_count : nat;
  unique_words : nat;
  content_words : nat
}.

(** [self.results['live_sentiment']] and [self.results['live_metrics']] *)
Record LiveSentiment : Type := mkLiveSentiment {
  live_category : Category;
  live_polarity : Q
}.

Record LiveMetrics : Type := mkLiveMetrics {
  live_word_count : nat;
  live_speaking_rate : Q;
  live_filler_count : nat;
  live_filler_ratio : Q;
  session_time : Q
}.

(** [self.results]; an empty dictionary under a key is [None]. *)
Record Results : Type := mkResults {
  transcript : string;
  sentiment : option Sentiment;
  metrics : option Metrics;
  feedback : list string;
  live_sentiment : option LiveSentiment;
  live_metrics : option LiveMetrics
}.

(** The analyzer object.  [backend_calls] records the texts handed to the
    sentiment backend, most recent first. *)
Record Analyzer : Type := mkAnalyzer {
  results : Results;
  mic_available : bool;
  is_recording : bool;
  live_transcript : string;
  start_time : option Q;
  backend_calls : list string
}.

Definition set_transcript (t : string) (r : Results) : Results :=
  mkResults t (sentiment r) (metrics r) (feedback r) (live_sentiment r) (live_metrics r).

Definition set_sentiment (s : Sentiment) (r : Results) : Results :=
  mkResults (transcript r) (Some s) (metrics r) (feedback r) (live_sentiment r) (live_metrics r).

Definition set_metrics (m : Metrics) (r : Results) : Results :=
  mkResults (transcript r) (sentiment r) (Some m) (feedback r) (live_sentiment r) (live_metrics r).

Definition set_feedback (f : list string) (r : Results) : Results :=
  mkResults (transcript r) (sentiment r) (metrics r) f (live_sentiment r) (live_metrics r).

Definition set_live (s : LiveSentiment) (m : LiveMetrics) (r : Results) : Results :=
  mkResults (transcript r) (sentiment r) (metrics r) (feedback r) (Some s) (Some m).

Definition with_results (f : Results -> Results) (a : Analyzer) : Analyzer :=
  mkAnalyzer (f (results a)) (mic_available a) (is_recording a)
             (live_transcript a) (start_time a) (backend_calls a).

Definition call_backend (text : string) (a : Analyzer) : Analyzer :=
  mkAnalyzer (results a) (mic_available a) (is_recording a)
             (live_transcript a) (start_time a) (text :: backend_calls a).

Definition set_recording (b : bool) (a : Analyzer) : Analyzer :=
  mkAnalyzer (results a) (mic_available a) b
             (live_transcript a) (start_time a) (backend_calls a).

(** The state [__init__] leaves behind. *)
Definition init (mic : bool) : Analyzer :=
  mkAnalyzer (mkResults "" None None [] None None) mic false "" None [].

(** [self.filler_words] *)
Definition filler_words : list string :=
  ["um"; "uh"; "like"; "you know"; "so"; "actually"; "basically"; "literally";
   "well"; "okay"].

(** The sentiment every degraded path stores. *)
Definition neutral_sentiment : Sentiment := mkSentiment 0.0 0.5 Neutral.

(** Truth value of [self.start_time]: [None] and [0.0] are false. *)
Definition truthy_time (t : option Q) : option Q :=
  match t with
  | Some v => if Qeq_bool v 0 then None else Some v
  | None => None
  end.

(** What the speech recognizer does with an existing file. *)
Inductive Recognition : Type :=
| Recognized (text : string)
| UnknownValueError
| RequestError (e : string)
| OtherError (e : string).

(** The libraries and services the class calls.  [word_tokenize] and
    [TextBlob] return [None] when the call raises; [TextBlob] gives the
    polarity and the subjectivity of a text. *)
Record Collaborators : Type := mkCollaborators {
  word_tokenize : string -> option (list string);
  stop_words : list string;
  TextBlob : string -> option (Q * Q);
  path_exists : string -> bool;
  recognize : string -> Recognition
}.

(** ** The metrics engine *)

Import PyStr.

(** [safe_tokenize]: the tokenizer on the lowercased text, or a plain split
    when it raises. *)
Definition safe_tokenize (E : Collaborators) (text : string) : list string :=
  match word_tokenize E (lower text) with
  | Some words => words
  | None => split_ws (lower text)
  end.

(** [word.lower().strip('.,!?') in self.filler_words] *)
Definition is_filler (word : string) : bool :=
  mem (strip_chars ".,!?" (lower word)) filler_words.

(** [sum(1 for word in words if ...)] *)
Definition count_fillers (words : list string) : nat :=
  List.length (filter is_filler words).

(** The test of the [content_words] comprehension. *)
Definition is_content (E : Collaborators) (w : string) : bool :=
  negb (mem (lower w) (stop_words E)) && isalpha w && (2 <? String.length w)%nat.

(** [[s.strip() for s in text.split('.') if s.strip()]] *)
Definition sentences (text : string) : list string :=
  map strip_ws
      (filter (fun s => negb (is_empty (strip_ws s))) (split_on "." text)).

(** The body of [calculate_metrics]; [now] is the value of [time.time()]. *)
Definition full_metrics (E : Collaborators) (start : option Q) (now : Q)
    (text : string) : Metrics :=
  let words := safe_tokenize E text in
  let wc := List.length words in
  let estimated_duration :=
    match truthy_time start with
    | Some t => PyNum.max (now - t) (PyNum.of_nat wc / 2.5)
    | None => PyNum.max 60 (PyNum.of_nat wc / 2.5)
    end in
  let rate :=
    if PyNum.gtb estimated_duration 0
    then (PyNum.of_nat wc / estimated_duration) * 60 else 0 in
  let fc := count_fillers words in
  let fr := if (0 <? wc)%nat then PyNum.of_nat fc / PyNum.of_nat wc else 0 in
  let sc := PyNum.max1 (List.length (sentences text)) in
  let content := map lower (filter (is_content E) words) in
  let cwc := List.length content in
  let uw := distinct content in
  let vr := if (0 <? cwc)%nat then PyNum.of_nat uw / PyNum.of_nat cwc else 0 in
  mkMetrics wc rate fc fr (PyNum.of_nat wc / PyNum.of_nat sc) vr
            estimated_duration sc uw cwc.

Definition calculate_metrics (E : Collaborators) (now : Q) (text : string)
    (a : Analyzer) : Analyzer :=
  with_results (set_metrics (full_metrics E (start_time a) now text)) a.

(** The record [calculate_basic_metrics] stores. *)
Definition basic_metrics (text : string) : Metrics :=
  let words := if is_empty text then [] else split_ws text in
  let wc := List.length words in
  mkMetrics wc 120.0 0 0.0 15.0 0.5 60.0
            (if is_empty text then 1%nat else PyNum.max1 (count_char "." text))
            (match words with [] => 0%nat | _ => distinct words end)
            wc.

Definition calculate_basic_metrics (text : string) (a : Analyzer) : Analyzer :=
  with_results (set_metrics (basic_metrics text)) a.

(** ** Sentiment *)

(** The test [not text or len(text.strip()) < 5]. *)
Definition insufficient (text : string) : bool :=
  is_empty text || (stripped_len text <? 5)%nat.

(** [analyze_sentiment(text)]; the argument [None] takes the stored
    transcript.  Returns the stored sentiment and the new state. *)
Definition analyze_sentiment (E : Collaborators) (now : Q) (arg : option string)
    (a : Analyzer) : Sentiment * Analyzer :=
  let text := match arg with Some t => t | None => transcript (results a) end in
  if insufficient text then
    (neutral_sentiment,
     calculate_basic_metrics text (with_results (set_sentiment neutral_sentiment) a))
  else
    match TextBlob E text with
    | Some (sentiment_polarity, sentiment_subjectivity) =>
        let sentiment_category :=
          if PyNum.gtb sentiment_polarity 0.1 then Positive
          else if PyNum.ltb sentiment_polarity (-0.1) then Negative
          else Neutral in
        let s := mkSentiment sentiment_polarity sentiment_subjectivity
                             sentiment_category in
        (s, calculate_metrics E now text
              (with_results (set_sentiment s) (call_backend text a)))
    | None =>
        (neutral_sentiment,
         calculate_basic_metrics text
           (with_results (set_sentiment neutral_sentiment) (call_backend text a)))
    end.

(** [analyze_live_sentiment]; [None] when the backend raises, which this
    method does not catch. *)
Definition analyze_live_sentiment (E : Collaborators) (now : Q) (a : Analyzer)
    : option Analyzer :=
  if is_empty (strip_ws (live_transcript a)) then Some a
  else
    match TextBlob E (live_transcript a) with
    | None => None
    | Some (sentiment_polarity, _) =>
        let sentiment_category :=
          if PyNum.gtb sentiment_polarity 0.1 then Positive
          else if PyNum.ltb sentiment_polarity (-0.1) then Negative
          else Neutral in
        let words := safe_tokenize E (live_transcript a) in
        let wc := List.length words in
        let elapsed_time :=
          match truthy_time (start_time a) with
          | Some t => now - t
          | None => 1
          end in
        let rate :=
          if PyNum.gtb elapsed_time 0
          then (PyNum.of_nat wc / elapsed_time) * 60 else 0 in
        let fc := count_fillers words in
        let fr := if (0 <? wc)%nat then PyNum.of_nat fc / PyNum.of_nat wc else 0 in
        Some (with_results
                (set_live (mkLiveSentiment sentiment_category sentiment_polarity)
                          (mkLiveMetrics wc rate fc fr elapsed_time))
                (call_backend (live_transcript a) a))
    end.

(** ** Feedback *)

Definition negative_tone_line : string :=
  "🔴 Your tone appears somewhat negative. Consider using more positive and encouraging language.".
Definition neutral_tone_line : string :=
  "🟡 Your tone is quite neutral. Adding more enthusiasm could increase engagement.".
Definition positive_tone_line : string :=
  "🟢 Your positive tone creates an encouraging learning environment.".

Definition too_fast_line (rate : Q) : string :=
  "⚡ Speaking rate: " ++ PyFmt.fixed0 rate ++ " wpm - Too fast! Slow down for clarity.".
Definition too_slow_line (rate : Q) : string :=
  "🐌 Speaking rate: " ++ PyFmt.fixed0 rate
    ++ " wpm - Too slow. Increase pace to maintain attention.".
Definition balanced_pace_line (rate : Q) : string :=
  "✅ Speaking rate: " ++ PyFmt.fixed0 rate ++ " wpm - Well-balanced pace.".

Definition high_filler_line (ratio : Q) (count : nat) : string :=
  "🚨 High filler word usage: " ++ PyFmt.fixed1 (ratio * 100) ++ "% ("
    ++ PyFmt.of_count count ++ " times)".
Definition moderate_filler_line (ratio : Q) : string :=
  "⚠️ Moderate filler words: " ++ PyFmt.fixed1 (ratio * 100)
    ++ "% - Room for improvement".
Definition few_filler_line : string :=
  "✨ Excellent! Very few filler words used.".

Definition low_vocabulary_line : string :=
  "📚 Consider using more varied vocabulary to maintain interest.".
Definition rich_vocabulary_line : string :=
  "🎓 Rich vocabulary! Ensure it matches your audience level.".
Definition good_vocabulary_line : string :=
  "📖 Good vocabulary variety and accessibility.".

Definition summary_line (words : nat) (duration : Q) : string :=
  "📊 Session Summary: " ++ PyFmt.of_count words ++ " words in "
    ++ PyFmt.fixed1 (duration / 60) ++ " minutes".

Definition success_line : string :=
  "🌟 Great job! You're demonstrating strong communication skills.".
Definition practice_line : string :=
  "💪 Keep practicing! Small improvements make a big difference.".

Definition no_metrics_line : string :=
  "Analysis completed, but detailed metrics are not available.".

(** The four rule blocks of [generate_feedback], each appending one line. *)
Definition sentiment_line (s : option Sentiment) : string :=
  let sentiment_category := match s with Some v => category v | None => Neutral end in
  let sentiment_polarity := match s with Some v => polarity v | None => 0 end in
  match sentiment_category with
  | Negative => negative_tone_line
  | Neutral =>
      if PyNum.ltb sentiment_polarity 0.05 then neutral_tone_line
      else positive_tone_line
  | Positive => positive_tone_line
  end.

Definition pace_line (m : Metrics) : string :=
  if PyNum.gtb (speaking_rate m) 180 then too_fast_line (speaking_rate m)
  else if PyNum.ltb (speaking_rate m) 90 then too_slow_line (speaking_rate m)
  else balanced_pace_line (speaking_rate m).

Definition filler_line (m : Metrics) : string :=
  if PyNum.gtb (filler_ratio m) 0.08 then high_filler_line (filler_ratio m) (filler_count m)
  else if PyNum.gtb (filler_ratio m) 0.03 then moderate_filler_line (filler_ratio m)
  else few_filler_line.

Definition vocabulary_line (m : Metrics) : string :=
  if PyNum.ltb (vocabulary_richness m) 0.4 then low_vocabulary_line
  else if PyNum.gtb (vocabulary_richness m) 0.7 then rich_vocabulary_line
  else good_vocabulary_line.

(** The test of the closing comprehension:
    ["🟢" in f or "✅" in f or "✨" in f]. *)
Definition affirming (f : string) : bool :=
  contains "🟢" f || contains "✅" f || contains "✨" f.

Definition closing_line (so_far : list string) : string :=
  if (2 <=? List.length (filter affirming so_far))%nat then success_line
  else practice_line.

(** The list [generate_feedback] builds. *)
Definition feedback_lines (r : Results) : list string :=
  match metrics r with
  | None => [no_metrics_line]
  | Some m =>
      let f1 := ([] ++ [sentiment_line (sentiment r)])%list in
      let f2 := (f1 ++ [pace_line m])%list in
      let f3 := (f2 ++ [filler_line m])%list in
      let f4 := (f3 ++ [vocabulary_line m])%list in
      let f5 := (f4 ++ [summary_line (word_count m) (duration_seconds m)])%list in
      (f5 ++ [closing_line f5])%list
  end.

Definition generate_feedback (a : Analyzer) : list string * Analyzer :=
  let f := feedback_lines (results a) in
  (f, with_results (set_feedback f) a).

(** ** Sessions *)

Definition unintelligible_msg : string :=
  "Could not understand audio clearly. Please try with a clearer recording.".

(** [transcribe_audio(audio_file)]: the returned text and the new state. *)
Definition transcribe_audio (E : Collaborators) (audio_file : string)
    (a : Analyzer) : string * Analyzer :=
  if negb (path_exists E audio_file) then (EmptyString, a)
  else
    let store msg := (msg, with_results (set_transcript msg) a) in
    match recognize E audio_file with
    | Recognized t => store t
    | UnknownValueError => store unintelligible_msg
    | RequestError e => store ("Speech recognition service error: " ++ e)
    | OtherError e => store ("Transcription failed: " ++ e)
    end.

(** [create_error_results(error_msg)] *)
Definition create_error_results (error_msg : string) : Results :=
  mkResults ("Analysis failed: " ++ error_msg)
            (Some (mkSentiment 0.0 0.5 Neutral))
            (Some (mkMetrics 0 0 0 0.0 0 0 0 0 0 0))
            ["❌ Analysis error: " ++ error_msg;
             "Please check your audio file and try again."]
            None None.

(** [run_analysis_from_file(audio_file)]: the returned record and the new
    state.  A missing file raises [FileNotFoundError], whose text goes to
    [create_error_results]. *)
Definition run_analysis_from_file (E : Collaborators) (now : Q)
    (audio_file : string) (a : Analyzer) : Results * Analyzer :=
  if negb (path_exists E audio_file)
  then (create_error_results ("Audio file not found: " ++ audio_file), a)
  else
    let '(t, a1) := transcribe_audio E audio_file a in
    let '(_, a2) := analyze_sentiment E now (Some t) a1 in
    let '(_, a3) := generate_feedback a2 in
    (results a3, a3).

(** [stop_live_recording] *)
Definition stop_live_recording (E : Collaborators) (now : Q) (a : Analyzer)
    : Analyzer :=
  let a0 := set_recording false a in
  if is_empty (strip_ws (live_transcript a0)) then a0
  else
    let a1 := with_results (set_transcript (strip_ws (live_transcript a0))) a0 in
    let '(_, a2) := analyze_sentiment E now None a1 in
    snd (generate_feedback a2).

(** ** Stated properties and sample collaborators *)

(** The vocabulary invariant of the result record, as the data model
    states it. *)
Definition richness_invariant (m : Metrics) : Prop :=
  ((0 < content_words m)%nat ->
   vocabulary_richness m == PyNum.of_nat (unique_words m) / PyNum.of_nat (content_words m))
  /\ (content_words m = 0%nat -> vocabulary_richness m == 0).

(** The filler invariant of the result record. *)
Definition filler_invariant (m : Metrics) : Prop :=
  ((0 < word_count m)%nat ->
   filler_ratio m == PyNum.of_nat (filler_count m) / PyNum.of_nat (word_count m)
   /\ 0 <= filler_ratio m <= 1)
  /\ (word_count m = 0%nat -> filler_ratio m == 0).

Definition punctuation (c : ascii) : bool := char_in c ".,!?".

(** Filler matching as the lexicon is described: only trailing punctuation
    is removed from the case-folded token. *)
Definition is_filler_trailing (word : string) : bool :=
  mem (rstrip punctuation (lower word)) filler_words.

Definition count_fillers_trailing (words : list string) : nat :=
  List.length (filter is_filler_trailing words).

(** The three affirming rules of the feedback table, on the record. *)
Definition affirms_tone (s : option Sentiment) : bool :=
  match s with
  | None => false
  | Some v =>
      match category v with
      | Negative => false
      | Neutral => negb (PyNum.ltb (polarity v) 0.05)
      | Positive => true
      end
  end.

Definition affirms_pace (m : Metrics) : bool :=
  negb (PyNum.gtb (speaking_rate m) 180) && negb (PyNum.ltb (speaking_rate m) 90).

Definition affirms_fillers (m : Metrics) : bool :=
  negb (PyNum.gtb (filler_ratio m) 0.03).

Definition count_true (bs : list bool) : nat := List.length (filter id bs).

(** A character that is not blank. *)
Definition solid (c : ascii) : bool := negb (is_space c).

(** Two bytes of the affirming markers: the last one of the green circle,
    and the middle one of the check mark and of the sparkles. *)
Definition green_byte : ascii := ascii_of_nat 162.
Definition check_byte : ascii := ascii_of_nat 156.

(** The stopword list the constructor falls back to. *)
Definition fallback_stop_words : list string :=
  ["the"; "a"; "an"; "and"; "or"; "but"; "in"; "on"; "at"; "to"; "for";
   "of"; "with"; "by"; "is"; "are"; "was"; "were"; "be"; "been"; "have";
   "has"; "had"; "do"; "does"; "did"; "will"; "would"; "could"; "should";
   "i"; "you"; "he"; "she"; "it"; "we"; "they"; "me"; "him"; "her"; "us"; "them"].

(** A machine with no tokenizer data, no backend and no files. *)
Definition offline : Collaborators :=
  mkCollaborators (fun _ => None) fallback_stop_words (fun _ => None)
                  (fun _ => false) (fun _ => UnknownValueError).

(** A machine whose backend scores every text [(p, 0.5)], whose only file
    is [lecture.wav], and whose recognizer answers [r]. *)
Definition scripted (p : Q) (r : Recognition) : Collaborators :=
  mkCollaborators (fun _ => None) fallback_stop_words (fun _ => Some (p, 0.5))
                  (fun f => String.eqb f "lecture.wav") (fun _ => r).

(** An analyzer in the middle of a live session started at time [t]. *)
Definition recording (t : Q) (heard : string) : Analyzer :=
  mkAnalyzer (mkResults "" None None [] None None) true true heard (Some t) [].

(** ** Live recording *)

(** The start of [start_live_recording]: the three assignments before the
    calibration. *)
Definition begin_recording (t : Q) (a : Analyzer) : Analyzer :=
  mkAnalyzer (results a) (mic_available a) true EmptyString (Some t)
             (backend_calls a).

(** [self.live_transcript += " " + chunk_text] *)
Definition hear (chunk_text : string) (a : Analyzer) : Analyzer :=
  mkAnalyzer (results a) (mic_available a) (is_recording a)
             (live_transcript a ++ " " ++ chunk_text) (start_time a)
             (backend_calls a).

(** [calibrate_microphone]; [ambient_ok] tells whether the adjustment for
    ambient noise goes through. *)
Definition calibrate_microphone (ambient_ok : bool) (a : Analyzer) : bool :=
  if negb (mic_available a) then false else ambient_ok.

(** What one turn of the listening loop meets: a recognized chunk, one of
    the two recognizer errors, a listen timeout, an interrupt, or any other
    exception. *)
Inductive Chunk : Type :=
| Heard (chunk_text : string)
| NotUnderstood
| ServiceDown (e : string)
| WaitTimeout
| KeyboardInterrupt
| Crash (e : string).

(** Where a session stands once the given turns are over: still inside the
    loop, or returned to the caller. *)
Inductive Session : Type :=
| Listening (a : Analyzer)
| Returned (a : Analyzer).

(** The loop of [start_live_recording] with its handlers; every turn comes
    with the clock value of that turn.  The two recognizer errors and the
    timeout go on to the next turn; an interrupt, any other exception and a
    cleared recording flag leave the loop through [stop_live_recording]. *)
Fixpoint live_loop (E : Collaborators) (turns : list (Q * Chunk))
    (a : Analyzer) : Session :=
  match turns with
  | [] => Listening a
  | (now, turn) :: rest =>
      if negb (is_recording a) then Returned (stop_live_recording E now a)
      else
        match turn with
        | Heard chunk_text =>
            let a1 := hear chunk_text a in
            match analyze_live_sentiment E now a1 with
            | Some a2 => live_loop E rest a2
            | None =>
                Returned (stop_live_recording E now
                            (call_backend (live_transcript a1) a1))
            end
        | NotUnderstood => live_loop E rest a
        | ServiceDown _ => live_loop E rest a
        | WaitTimeout => live_loop E rest a
        | KeyboardInterrupt => Returned (stop_live_recording E now a)
        | Crash _ => Returned (stop_live_recording E now a)
        end
  end.

(** [start_live_recording]; [start] is the clock value at the start. *)
Definition start_live_recording (E : Collaborators) (start : Q)
    (ambient_ok : bool) (turns : list (Q * Chunk)) (a : Analyzer) : Session :=
  if negb (mic_available a) then Returned a
  else
    let a1 := begin_recording start a in
    if negb (calibrate_microphone ambient_ok a1) then Returned a1
    else live_loop E turns a1.

(** The turns that change something. *)
Definition eventful (turn : Q * Chunk) : bool :=
  match snd turn with
  | NotUnderstood | ServiceDown _ | WaitTimeout => false
  | _ => true
  end.

(** The text a run of chunks adds to the live transcript. *)
Fixpoint spoken (chunks : list string) : string :=
  match chunks with
  | [] => EmptyString
  | c :: rest => " " ++ c ++ spoken rest
  end.

(** ** The upload filter of the web front end *)

(** [ALLOWED_EXTENSIONS] *)
Definition ALLOWED_EXTENSIONS : list string := ["wav"; "mp3"; "ogg"; "m4a"; "flac"].

(** [s.rsplit(sep, 1)[1]]: what follows the last separator, if there is
    one. *)
Fixpoint after_last (sep : ascii) (s : string) : option string :=
  match s with
  | EmptyString => None
  | String c s' =>
      match after_last sep s' with
      | Some ext => Some ext
      | None => if Ascii.eqb c sep then Some s' else None
      end
  end.

(** [allowed_file(filename)] *)
Definition allowed_file (filename : string) : bool :=
  char_in "." filename &&
  match after_last "." filename with
  | Some ext => mem (lower ext) ALLOWED_EXTENSIONS
  | None => false
  end.

(** * Properties *)

(** ** Numbers, strings and formatting *)

Module PyNumFacts.

Import PyNum.

Lemma ltb_lt (a b : Q) : ltb a b = true <-> a < b.
Proof.
  unfold ltb. rewrite negb_true_iff. split; intro H.
  - apply Qnot_le_lt. intro L. apply Qle_bool_iff in L. congruence.
  - destruct (Qle_bool b a) eqn:E; [|reflexivity].
    apply Qle_bool_iff in E. exfalso. exact (Qlt_not_le _ _ H E).
Qed.

Lemma ltb_ge (a b : Q) : ltb a b = false <-> b <= a.
Proof.
  unfold ltb. rewrite negb_false_iff. apply Qle_bool_iff.
Qed.

Lemma gtb_gt (a b : Q) : gtb a b = true <-> b < a.
Proof. apply ltb_lt. Qed.

Lemma gtb_le (a b : Q) : gtb a b = false <-> a <= b.
Proof. apply ltb_ge. Qed.

Lemma max_Qmax (a b : Q) : max a b == Qmax a b.
Proof.
  unfold max. destruct (gtb b a) eqn:E.
  - apply gtb_gt in E. symmetry. apply Q.max_r. apply Qlt_le_weak; exact E.
  - apply gtb_le in E. symmetry. apply Q.max_l. exact E.
Qed.

Lemma of_nat_nonneg (n : nat) : 0 <= of_nat n.
Proof.
  unfold of_nat, Qle; simpl. lia.
Qed.

Lemma of_nat_pos (n : nat) : (0 < n)%nat -> 0 < of_nat n.
Proof.
  intro H. unfold of_nat, Qlt; simpl. lia.
Qed.

Lemma of_nat_le (n m : nat) : (n <= m)%nat -> of_nat n <= of_nat m.
Proof.
  intro H. unfold of_nat, Qle; simpl. lia.
Qed.

Lemma max1_ge (n : nat) : (1 <= max1 n)%nat.
Proof.
  unfold max1. destruct (1 <? n)%nat eqn:E; [apply Nat.ltb_lt in E|]; lia.
Qed.

(** A quotient of counts [n / m] with [n <= m] and [0 < m] lies in [0,1]. *)
Lemma ratio_unit (n m : nat) :
  (n <= m)%nat -> (0 < m)%nat -> 0 <= of_nat n / of_nat m <= 1.
Proof.
  intros Hle Hpos.
  pose proof (of_nat_pos m Hpos) as Pm.
  split.
  - apply Qle_shift_div_l; [exact Pm|]. rewrite Qmult_0_l. apply of_nat_nonneg.
  - apply Qle_shift_div_r; [exact Pm|]. rewrite Qmult_1_l. apply of_nat_le; exact Hle.
Qed.

End PyNumFacts.

Module PyStrFacts.

Import PyStr.

Lemma mem_In (x : string) (xs : list string) : mem x xs = true <-> In x xs.
Proof.
  unfold mem. rewrite existsb_exists. split.
  - intros [y [Hy E]]. apply String.eqb_eq in E. subst. exact Hy.
  - intro H. exists x. split; [exact H|apply String.eqb_refl].
Qed.

Lemma distinct_le (xs : list string) : (distinct xs <= List.length xs)%nat.
Proof.
  unfold distinct. apply NoDup_incl_length.
  - apply NoDup_nodup.
  - intros x Hx. apply nodup_In in Hx. exact Hx.
Qed.

Lemma length_app (a b : string) :
  String.length (a ++ b) = (String.length a + String.length b)%nat.
Proof.
  induction a as [|c a IH]; simpl; [reflexivity | rewrite IH; reflexivity].
Qed.

Lemma occurs_app (c : ascii) (a b : string) :
  occurs c (a ++ b) = occurs c a || occurs c b.
Proof.
  unfold occurs. induction a as [|d a IH]; simpl; [reflexivity|].
  rewrite IH. apply orb_assoc.
Qed.

Lemma prefix_occurs (n h : string) (c : ascii) :
  prefix n h = true -> occurs c n = true -> occurs c h = true.
Proof.
  unfold occurs. revert h. induction n as [|d n IH]; intros h P O; simpl in *.
  - discriminate.
  - destruct h as [|e h]; simpl in P; [discriminate|].
    destruct (ascii_dec d e) as [->|ne]; [|discriminate].
    simpl. apply orb_true_iff in O. apply orb_true_iff.
    destruct O as [O|O]; [left; exact O|right; apply IH; assumption].
Qed.

(** A substring brings all its characters with it. *)
Lemma contains_occurs (n h : string) (c : ascii) :
  contains n h = true -> occurs c n = true -> occurs c h = true.
Proof.
  induction h as [|e h IH]; intros C O; cbn [contains] in C.
  - rewrite orb_false_r in C. exact (prefix_occurs _ _ _ C O).
  - apply orb_true_iff in C. destruct C as [P|C].
    + exact (prefix_occurs _ _ _ P O).
    + unfold occurs in *. simpl. rewrite (IH C O). apply orb_true_r.
Qed.

Lemma contains_absent (n h : string) (c : ascii) :
  occurs c n = true -> occurs c h = false -> contains n h = false.
Proof.
  intros On Oh. destruct (contains n h) eqn:E; [|reflexivity].
  rewrite (contains_occurs _ _ _ E On) in Oh. discriminate.
Qed.

Lemma contains_prefix (n h : string) : prefix n h = true -> contains n h = true.
Proof.
  intro P. destruct h; cbn [contains]; rewrite P; reflexivity.
Qed.

End PyStrFacts.

Module PyFmtFacts.

Import PyStr PyFmt PyStrFacts.

Lemma uint_plain (u : Decimal.uint) (c : ascii) :
  plain c = false -> occurs c (NilEmpty.string_of_uint u) = false.
Proof.
  intro H. unfold plain in H. simpl in H.
  repeat (apply orb_false_iff in H; destruct H as [? H]).
  unfold occurs.
  induction u; simpl; try reflexivity; rewrite IHu, orb_false_r; assumption.
Qed.

Lemma of_N_plain (n : N) (c : ascii) : plain c = false -> occurs c (of_N n) = false.
Proof. apply uint_plain. Qed.

Lemma of_count_plain (n : nat) (c : ascii) :
  plain c = false -> occurs c (of_count n) = false.
Proof. apply uint_plain. Qed.

Lemma sign_plain (q : Q) (c : ascii) : plain c = false -> occurs c (sign q) = false.
Proof.
  intro H. unfold sign. destruct (PyNum.ltb q 0); [|reflexivity].
  unfold plain in H. simpl in H.
  repeat (apply orb_false_iff in H; destruct H as [? H]).
  unfold occurs. simpl. rewrite orb_false_r. assumption.
Qed.

Lemma fixed0_plain (q : Q) (c : ascii) : plain c = false -> occurs c (fixed0 q) = false.
Proof.
  intro H. unfold fixed0. rewrite occurs_app, sign_plain, of_N_plain by exact H.
  reflexivity.
Qed.

Lemma fixed1_plain (q : Q) (c : ascii) : plain c = false -> occurs c (fixed1 q) = false.
Proof.
  intro H. unfold fixed1. cbv zeta.
  rewrite !occurs_app, sign_plain, !of_N_plain by exact H.
  assert (D : occurs c "." = false).
  { unfold plain in H. simpl in H.
    repeat (apply orb_false_iff in H; destruct H as [? H]).
    unfold occurs. simpl. rewrite orb_false_r. assumption. }
  rewrite D. reflexivity.
Qed.

Example fixed0_120 : fixed0 120 = "120".
Proof. reflexivity. Qed.

Example fixed0_tie : fixed0 (5 # 2) = "2" /\ fixed0 (7 # 2) = "4".
Proof. split; reflexivity. Qed.

Example fixed1_rate : fixed1 (425 # 100) = "4.2" /\ fixed1 (- (1 # 25)) = "-0.0".
Proof. split; reflexivity. Qed.

End PyFmtFacts.

(** ** Sentiment categories *)

Section Categories.

Import PyNumFacts.

(** The three-way test both analyses write out. *)
Lemma threshold_cases (p : Q) :
  let c := if PyNum.gtb p 0.1 then Positive
           else if PyNum.ltb p (-0.1) then Negative else Neutral in
  (c = Positive <-> 0.1 < p) /\
  (c = Negative <-> p < -0.1) /\
  (c = Neutral <-> -0.1 <= p /\ p <= 0.1).
Proof.
  cbv zeta.
  destruct (PyNum.gtb p 0.1) eqn:G; [apply gtb_gt in G | apply gtb_le in G].
  - assert (N : ~ p < -0.1).
    { intro L. apply (Qlt_irrefl p). apply Qlt_trans with (-0.1); [exact L|].
      apply Qlt_trans with 0.1; [reflexivity | exact G]. }
    repeat split; intros; try discriminate; try assumption; try contradiction.
    destruct H as [_ H]. exfalso. exact (Qlt_not_le _ _ G H).
  - destruct (PyNum.ltb p (-0.1)) eqn:L; [apply ltb_lt in L | apply ltb_ge in L].
    + repeat split; intros; try discriminate; try assumption.
      * exfalso. exact (Qlt_not_le _ _ H G).
      * destruct H as [H _]. exfalso. exact (Qlt_not_le _ _ L H).
    + repeat split; intros; try discriminate; try assumption.
      * exfalso. exact (Qlt_not_le _ _ H G).
      * exfalso. exact (Qlt_not_le _ _ H L).
Qed.

End Categories.

(** C1.  When the backend scores a text with polarity [p], the full analysis
    stores and returns a sentiment with that polarity whose category is
    Positive exactly when [p > 0.1], Negative exactly when [p < -0.1] and
    Neutral exactly when [-0.1 <= p <= 0.1]; a live update on a transcript
    with the same polarity stores the same category.  The two bounds
    themselves are Neutral. *)
Theorem category_thresholds (E : Collaborators) (now : Q) (a live : Analyzer)
    (text : string) (p s s' : Q) :
  insufficient text = false ->
  TextBlob E text = Some (p, s) ->
  is_empty (strip_ws (live_transcript live)) = false ->
  TextBlob E (live_transcript live) = Some (p, s') ->
  let full := analyze_sentiment E now (Some text) a in
  let c := category (fst full) in
  sentiment (results (snd full)) = Some (fst full) /\
  polarity (fst full) = p /\
  (exists live',
      analyze_live_sentiment E now live = Some live' /\
      option_map live_polarity (live_sentiment (results live')) = Some p /\
      option_map live_category (live_sentiment (results live')) = Some c) /\
  (c = Positive <-> 0.1 < p) /\
  (c = Negative <-> p < -0.1) /\
  (c = Neutral <-> -0.1 <= p /\ p <= 0.1) /\
  (p == 0.1 -> c = Neutral) /\
  (p == -0.1 -> c = Neutral).
Proof.
  intros Hlong Hblob Hlive Hblob'. cbv zeta.
  unfold analyze_sentiment, analyze_live_sentiment.
  rewrite Hlong, Hblob, Hlive, Hblob'. cbn [fst snd category polarity].
  pose proof (threshold_cases p) as T. cbv zeta in T.
  destruct T as [TP [TN TZ]].
  split; [reflexivity|]. split; [reflexivity|]. split.
  { eexists. split; [reflexivity|]. split; reflexivity. }
  split; [exact TP|]. split; [exact TN|]. split; [exact TZ|].
  split; intro Hp; apply TZ; rewrite Hp; split; discriminate.
Qed.

Lemma category_thresholds_witness :
  category (fst (analyze_sentiment (scripted 0.1 UnknownValueError) 0
                   (Some "a fine lecture") (init false))) = Neutral.
Proof.
  pose proof (category_thresholds (scripted 0.1 UnknownValueError) 0 (init false)
                (recording 0 "a fine lecture") "a fine lecture" 0.1 0.5 0.5
                eq_refl eq_refl eq_refl eq_refl) as H.
  cbv zeta in H. destruct H as (_ & _ & _ & _ & _ & _ & H & _).
  apply H. reflexivity.
Defined.

(** ** Metrics *)

Section MetricsFacts.

Import PyNumFacts PyStrFacts.

Lemma count_fillers_le (words : list string) :
  (count_fillers words <= List.length words)%nat.
Proof. unfold count_fillers. apply filter_length_le. Qed.

Lemma ratio_or_zero (n m : nat) :
  (n <= m)%nat ->
  let r := if (0 <? m)%nat then PyNum.of_nat n / PyNum.of_nat m else 0 in
  ((0 < m)%nat -> r == PyNum.of_nat n / PyNum.of_nat m /\ 0 <= r <= 1) /\
  (m = 0%nat -> r == 0).
Proof.
  intro Hle. cbv zeta. destruct (0 <? m)%nat eqn:E.
  - apply Nat.ltb_lt in E. split.
    + intros _. split; [reflexivity | apply ratio_unit; assumption].
    + intro Z. lia.
  - apply Nat.ltb_ge in E. split.
    + intro P. lia.
    + intros _. reflexivity.
Qed.

Lemma full_metrics_richness (E : Collaborators) (start : option Q) (now : Q)
    (text : string) :
  richness_invariant (full_metrics E start now text) /\
  0 <= vocabulary_richness (full_metrics E start now text) <= 1.
Proof.
  unfold richness_invariant, full_metrics. cbv zeta.
  cbn [vocabulary_richness unique_words content_words].
  set (content := map lower (filter (is_content E) (safe_tokenize E text))).
  pose proof (ratio_or_zero (distinct content) (List.length content)
                (distinct_le content)) as R.
  cbv zeta in R. destruct R as [Rpos Rzero].
  split; [split|].
  - intro P. apply Rpos. exact P.
  - exact Rzero.
  - destruct (List.length content) eqn:L.
    + rewrite (Rzero eq_refl). split; discriminate.
    + apply Rpos. lia.
Qed.

End MetricsFacts.

(** C2, as stated, fails: on the empty text the basic-metrics fallback
    stores no content words and a vocabulary richness of 0.5, not 0. *)
Lemma basic_metrics_breaks_richness :
  exists m,
    metrics (results (snd (analyze_sentiment offline 0 (Some "") (init false)))) = Some m /\
    content_words m = 0%nat /\
    vocabulary_richness m == 0.5 /\
    ~ richness_invariant m.
Proof.
  eexists. split; [reflexivity|]. split; [reflexivity|]. split; [reflexivity|].
  intros [_ Z]. specialize (Z eq_refl). discriminate Z.
Qed.

(** C2, amended.  After [calculate_metrics] the stored vocabulary richness is
    [unique_words / content_words] when there are content words and 0 when
    there are none; after the basic-metrics fallback it is the fixed value
    0.5 whatever the stored counts are.  In both cases it lies in [0,1]. *)
Theorem vocabulary_richness_by_path (E : Collaborators) (now : Q)
    (text : string) (a : Analyzer) :
  (exists m, metrics (results (calculate_metrics E now text a)) = Some m /\
             richness_invariant m /\ 0 <= vocabulary_richness m <= 1) /\
  (exists m, metrics (results (calculate_basic_metrics text a)) = Some m /\
             vocabulary_richness m == 0.5 /\ 0 <= vocabulary_richness m <= 1).
Proof.
  split.
  - exists (full_metrics E (start_time a) now text). split; [reflexivity|].
    apply full_metrics_richness.
  - exists (basic_metrics text). split; [reflexivity|].
    split; [reflexivity|]. split; discriminate.
Qed.

(** C3, as stated, fails: the error result for a missing file carries a
    sentence count of 0. *)
Lemma error_result_has_no_sentence :
  option_map sentence_count
    (metrics (fst (run_analysis_from_file offline 0 "missing.wav" (init false))))
  = Some 0%nat /\
  ~ (forall (E : Collaborators) (now : Q) (f : string) (a : Analyzer) (m : Metrics),
        metrics (fst (run_analysis_from_file E now f a)) = Some m ->
        (1 <= sentence_count m)%nat).
Proof.
  split; [reflexivity|].
  intro H.
  specialize (H offline 0 "missing.wav" (init false) _ eq_refl).
  cbn in H. lia.
Qed.

(** C3, amended.  The metrics stored by [calculate_metrics] and by the
    basic-metrics fallback have a sentence count of at least 1; the record
    built by [create_error_results] has a sentence count of 0. *)
Theorem sentence_count_by_path (E : Collaborators) (now : Q) (text msg : string)
    (a : Analyzer) :
  (exists m, metrics (results (calculate_metrics E now text a)) = Some m /\
             (1 <= sentence_count m)%nat) /\
  (exists m, metrics (results (calculate_basic_metrics text a)) = Some m /\
             (1 <= sentence_count m)%nat) /\
  (exists m, metrics (create_error_results msg) = Some m /\
             sentence_count m = 0%nat).
Proof.
  split; [|split].
  - eexists. split; [reflexivity|]. cbn [full_metrics sentence_count].
    apply PyNumFacts.max1_ge.
  - eexists. split; [reflexivity|]. unfold basic_metrics. cbn [sentence_count].
    destruct (is_empty text); [lia | apply PyNumFacts.max1_ge].
  - eexists. split; reflexivity.
Qed.

Section Duration.

Import PyNumFacts.

Lemma truthy_time_some (t : Q) : ~ t == 0 -> truthy_time (Some t) = Some t.
Proof.
  intro N. unfold truthy_time. destruct (Qeq_bool t 0) eqn:E; [|reflexivity].
  apply Qeq_bool_iff in E. contradiction.
Qed.

Lemma truthy_time_zero (t : Q) : t == 0 -> truthy_time (Some t) = None.
Proof.
  intro Z. unfold truthy_time. apply Qeq_bool_iff in Z. rewrite Z. reflexivity.
Qed.

Lemma rate_cases (w d : Q) :
  let r := if PyNum.gtb d 0 then (w / d) * 60 else 0 in
  (0 < d -> r == (w / d) * 60) /\ (~ 0 < d -> r == 0).
Proof.
  cbv zeta. destruct (PyNum.gtb d 0) eqn:G;
    [apply gtb_gt in G | apply gtb_le in G]; split; intro H.
  - reflexivity.
  - contradiction.
  - exfalso. exact (Qlt_not_le _ _ H G).
  - reflexivity.
Qed.

End Duration.

(** C4.  [calculate_metrics] stores, with [word_count] the number of tokens:
    a duration of [max(elapsed, word_count / 2.5)] when the session has a
    start timestamp ([elapsed] being the time since then), and of
    [max(60, word_count / 2.5)] when it has none; and a speaking rate of
    [(word_count / duration) * 60] when the duration is positive, else 0.
    A start timestamp of exactly 0 tests false in the source and is treated
    as absent. *)
Theorem duration_policy (E : Collaborators) (now : Q) (text : string)
    (a : Analyzer) :
  exists m,
    metrics (results (calculate_metrics E now text a)) = Some m /\
    word_count m = List.length (safe_tokenize E text) /\
    (forall t, start_time a = Some t -> ~ t == 0 ->
       duration_seconds m == Qmax (now - t) (PyNum.of_nat (word_count m) / 2.5)) /\
    (start_time a = None ->
       duration_seconds m == Qmax 60 (PyNum.of_nat (word_count m) / 2.5)) /\
    (forall t, start_time a = Some t -> t == 0 ->
       duration_seconds m == Qmax 60 (PyNum.of_nat (word_count m) / 2.5)) /\
    (0 < duration_seconds m ->
       speaking_rate m == (PyNum.of_nat (word_count m) / duration_seconds m) * 60) /\
    (~ 0 < duration_seconds m -> speaking_rate m == 0).
Proof.
  exists (full_metrics E (start_time a) now text).
  split; [reflexivity|]. split; [reflexivity|].
  unfold full_metrics. cbv zeta.
  cbn [duration_seconds speaking_rate word_count].
  set (wc := PyNum.of_nat (List.length (safe_tokenize E text))).
  split; [|split; [|split]].
  - intros t St Nz. rewrite St, (truthy_time_some t Nz). apply PyNumFacts.max_Qmax.
  - intros St. rewrite St. cbn [truthy_time]. apply PyNumFacts.max_Qmax.
  - intros t St Z. rewrite St, (truthy_time_zero t Z). apply PyNumFacts.max_Qmax.
  - apply rate_cases.
Qed.

(** C5.  The metrics record satisfies [filler_ratio = filler_count /
    word_count] with the ratio in [0,1] when there are words, and
    [filler_ratio = 0] when there are none; this holds for the record of
    [calculate_metrics], where [filler_count] counts filler tokens, and for
    the record of the basic-metrics fallback, where both are 0. *)
Theorem filler_ratio_invariant (E : Collaborators) (now : Q) (text : string)
    (a : Analyzer) :
  (exists m, metrics (results (calculate_metrics E now text a)) = Some m /\
             word_count m = List.length (safe_tokenize E text) /\
             filler_count m = count_fillers (safe_tokenize E text) /\
             filler_invariant m) /\
  (exists m, metrics (results (calculate_basic_metrics text a)) = Some m /\
             filler_invariant m).
Proof.
  split.
  - exists (full_metrics E (start_time a) now text).
    split; [reflexivity|]. split; [reflexivity|]. split; [reflexivity|].
    unfold filler_invariant, full_metrics. cbv zeta.
    cbn [filler_ratio filler_count word_count].
    apply (ratio_or_zero (count_fillers (safe_tokenize E text))
             (List.length (safe_tokenize E text))).
    apply count_fillers_le.
  - exists (basic_metrics text). split; [reflexivity|].
    unfold filler_invariant, basic_metrics. cbv zeta.
    cbn [filler_ratio filler_count word_count].
    split.
    + intro P. split.
      * unfold Qdiv. rewrite Qmult_0_l. reflexivity.
      * split; discriminate.
    + intros _. reflexivity.
Qed.

(** ** Filler words *)

Section Stripping.

Variable p : ascii -> bool.

Lemma lstrip_split (s : string) :
  exists pre, s = pre ++ lstrip p s /\ all_chars p pre = true.
Proof.
  induction s as [|c s IH]; simpl.
  - exists EmptyString. split; reflexivity.
  - destruct (p c) eqn:Pc.
    + destruct IH as [pre [Eq All]]. exists (String c pre). simpl.
      rewrite Pc, All. split; [f_equal; exact Eq | reflexivity].
    + exists EmptyString. split; reflexivity.
Qed.

Lemma rstrip_split (s : string) :
  exists post, s = rstrip p s ++ post /\ all_chars p post = true.
Proof.
  induction s as [|c s IH]; simpl.
  - exists EmptyString. split; reflexivity.
  - destruct IH as [post [Eq All]].
    destruct (rstrip p s) as [|d r] eqn:R; cbn [is_empty andb].
    + simpl in Eq. subst post. destruct (p c) eqn:Pc.
      * exists (String c s). simpl. rewrite Pc, All. split; reflexivity.
      * exists s. split; [reflexivity | exact All].
    + exists post. simpl in *. rewrite <- Eq. split; [reflexivity | exact All].
Qed.

Lemma lstrip_all (pre t : string) :
  all_chars p pre = true -> lstrip p (pre ++ t) = lstrip p t.
Proof.
  induction pre as [|c pre IH]; simpl; intro H; [reflexivity|].
  apply andb_true_iff in H. destruct H as [Pc All]. rewrite Pc. apply IH; exact All.
Qed.

Lemma rstrip_blank (post : string) :
  all_chars p post = true -> rstrip p post = EmptyString.
Proof.
  induction post as [|c post IH]; simpl; intro H; [reflexivity|].
  apply andb_true_iff in H. destruct H as [Pc All].
  rewrite (IH All), Pc. reflexivity.
Qed.

Lemma rstrip_all (f post : string) :
  all_chars p post = true -> rstrip p (f ++ post) = rstrip p f.
Proof.
  intro All. induction f as [|c f IH]; simpl.
  - apply rstrip_blank; exact All.
  - rewrite IH. reflexivity.
Qed.

(** A core that neither starts nor ends with a stripped character is what
    [strip] leaves of it, whatever stripped characters surround it. *)
Lemma strip_core (pre f post : string) :
  all_chars p pre = true -> all_chars p post = true ->
  lstrip p f = f -> rstrip p f = f -> f <> EmptyString ->
  strip p (pre ++ f ++ post) = f.
Proof.
  intros Apre Apost Lf Rf Ne. unfold strip.
  rewrite (lstrip_all pre (f ++ post) Apre).
  assert (L : lstrip p (f ++ post) = f ++ post).
  { destruct f as [|c f]; [contradiction|].
    simpl in *. destruct (p c) eqn:Pc; [|reflexivity].
    exfalso. pose proof (lstrip_split f) as [pre' [Eq _]].
    rewrite Lf in Eq. apply (f_equal String.length) in Eq.
    rewrite PyStrFacts.length_app in Eq. simpl in Eq. lia. }
  rewrite L. rewrite (rstrip_all f post Apost). exact Rf.
Qed.

Lemma strip_split (s : string) :
  exists pre post,
    s = pre ++ strip p s ++ post /\
    all_chars p pre = true /\ all_chars p post = true.
Proof.
  destruct (lstrip_split s) as [pre [E1 A1]].
  destruct (rstrip_split (lstrip p s)) as [post [E2 A2]].
  exists pre, post. unfold strip. rewrite <- E2. auto.
Qed.

End Stripping.

Lemma filler_words_core (f : string) :
  In f filler_words ->
  lstrip punctuation f = f /\ rstrip punctuation f = f /\ f <> EmptyString.
Proof.
  intro H. simpl in H.
  repeat (destruct H as [<- | H]; [repeat split; discriminate|]).
  contradiction.
Qed.

(** What [is_filler] accepts: a lexicon entry wrapped in punctuation. *)
Lemma is_filler_iff (w : string) :
  is_filler w = true <->
  exists pre f post,
    lower w = pre ++ f ++ post /\ In f filler_words /\
    all_chars punctuation pre = true /\ all_chars punctuation post = true.
Proof.
  unfold is_filler. rewrite PyStrFacts.mem_In. split.
  - intro H. destruct (strip_split punctuation (lower w)) as [pre [post [Eq [A1 A2]]]].
    exists pre, (strip punctuation (lower w)), post. auto.
  - intros [pre [f [post [Eq [Hin [A1 A2]]]]]].
    destruct (filler_words_core f Hin) as [L [R Ne]].
    change (strip_chars ".,!?" (lower w)) with (strip punctuation (lower w)).
    rewrite Eq, (strip_core punctuation pre f post A1 A2 L R Ne). exact Hin.
Qed.

(** C6, as stated, fails: the token ["!um"], which the fallback split
    produces from the text ["!um"], counts as a filler although stripping
    its trailing punctuation leaves it outside the lexicon. *)
Lemma leading_punctuation_counts :
  safe_tokenize offline "!um" = ["!um"] /\
  option_map filler_count
    (metrics (results (calculate_metrics offline 0 "!um" (init false)))) = Some 1%nat /\
  count_fillers_trailing (safe_tokenize offline "!um") = 0%nat /\
  count_fillers ["!um"] <> count_fillers_trailing ["!um"].
Proof.
  repeat split; try reflexivity. discriminate.
Qed.

(** C6, amended.  [filler_count] is the number of tokens whose case-folded
    form, after stripping leading and trailing characters among [.,!?], is an
    exact member of the lexicon: a token counts exactly when its case-folded
    form is a lexicon entry with punctuation before and after it. *)
Theorem filler_count_strips_both_ends (E : Collaborators) (now : Q)
    (text : string) (a : Analyzer) :
  option_map filler_count (metrics (results (calculate_metrics E now text a)))
    = Some (count_fillers (safe_tokenize E text)) /\
  count_fillers [] = 0%nat /\
  (forall w ws,
      count_fillers (w :: ws)
      = ((if is_filler w then 1 else 0) + count_fillers ws)%nat) /\
  (forall w, is_filler w = mem (strip punctuation (lower w)) filler_words) /\
  (forall w,
      is_filler w = true <->
      exists pre f post,
        lower w = pre ++ f ++ post /\ In f filler_words /\
        all_chars punctuation pre = true /\ all_chars punctuation post = true).
Proof.
  split; [reflexivity|]. split; [reflexivity|]. split; [|split].
  - intros w ws. unfold count_fillers. simpl. destruct (is_filler w); reflexivity.
  - intro w. reflexivity.
  - exact is_filler_iff.
Qed.

(** ** Short texts *)

Lemma insufficient_iff (text : string) :
  insufficient text = true <->
  text = EmptyString \/ (stripped_len text < 5)%nat.
Proof.
  unfold insufficient. rewrite orb_true_iff, Nat.ltb_lt.
  split; (intros [H|H]; [left|right; exact H]).
  - destruct text; [reflexivity | discriminate H].
  - subst. reflexivity.
Qed.

(** C7.  For a text that is empty or has fewer than 5 characters (code
    points) after trimming, whether it is passed as the argument or taken
    from the stored transcript, [analyze_sentiment] returns and stores the
    neutral default (polarity 0.0, subjectivity 0.5, category Neutral),
    stores the record of the basic-metrics fallback for that text, changes
    nothing else, and does not call the sentiment backend. *)
Theorem short_text_is_neutral (E : Collaborators) (now : Q)
    (arg : option string) (a : Analyzer) :
  let text := match arg with Some t => t | None => transcript (results a) end in
  text = EmptyString \/ (stripped_len text < 5)%nat ->
  let out := analyze_sentiment E now arg a in
  fst out = mkSentiment 0.0 0.5 Neutral /\
  sentiment (results (snd out)) = Some (mkSentiment 0.0 0.5 Neutral) /\
  metrics (results (snd out)) = Some (basic_metrics text) /\
  snd out = calculate_basic_metrics text
              (with_results (set_sentiment neutral_sentiment) a) /\
  backend_calls (snd out) = backend_calls a /\
  transcript (results (snd out)) = transcript (results a) /\
  feedback (results (snd out)) = feedback (results a).
Proof.
  cbv zeta. intro H. apply insufficient_iff in H.
  unfold analyze_sentiment. rewrite H. cbn [fst snd].
  repeat split; reflexivity.
Qed.

Lemma short_text_is_neutral_witness :
  backend_calls (snd (analyze_sentiment (scripted 0.9 UnknownValueError) 0
                        (Some "  café  ") (init false))) = [] /\
  metrics (results (snd (analyze_sentiment (scripted 0.9 UnknownValueError) 0
                           (Some "  café  ") (init false))))
  = Some (mkMetrics 1 120.0 0 0.0 15.0 0.5 60.0 1 1 1).
Proof.
  assert (S : "  café  " = EmptyString \/ (stripped_len "  café  " < 5)%nat).
  { right. vm_compute. lia. }
  pose proof (short_text_is_neutral (scripted 0.9 UnknownValueError) 0
                (Some "  café  ") (init false) S) as H.
  cbv zeta in H. destruct H as (_ & _ & M & _ & B & _).
  split; [exact B | exact M].
Defined.

(** ** Feedback *)

Section FeedbackFacts.

Import PyNumFacts PyStrFacts PyFmtFacts.

Lemma not_affirming (f : string) :
  occurs green_byte f = false -> occurs check_byte f = false ->
  affirming f = false.
Proof.
  intros G C. unfold affirming.
  rewrite (contains_absent "🟢" f green_byte eq_refl G).
  rewrite (contains_absent "✅" f check_byte eq_refl C).
  rewrite (contains_absent "✨" f check_byte eq_refl C).
  reflexivity.
Qed.

Lemma affirming_positive_tone : affirming positive_tone_line = true.
Proof. reflexivity. Qed.

Lemma affirming_few_fillers : affirming few_filler_line = true.
Proof. reflexivity. Qed.

Lemma affirming_balanced (r : Q) : affirming (balanced_pace_line r) = true.
Proof.
  unfold affirming.
  rewrite (contains_prefix "✅" (balanced_pace_line r) eq_refl).
  rewrite orb_true_r. reflexivity.
Qed.

Ltac plain_line :=
  apply not_affirming;
  rewrite ?occurs_app;
  rewrite ?fixed0_plain, ?fixed1_plain, ?of_count_plain by reflexivity;
  reflexivity.

Lemma affirming_too_fast (r : Q) : affirming (too_fast_line r) = false.
Proof. unfold too_fast_line. plain_line. Qed.

Lemma affirming_too_slow (r : Q) : affirming (too_slow_line r) = false.
Proof. unfold too_slow_line. plain_line. Qed.

Lemma affirming_high_filler (r : Q) (n : nat) : affirming (high_filler_line r n) = false.
Proof. unfold high_filler_line. plain_line. Qed.

Lemma affirming_moderate_filler (r : Q) : affirming (moderate_filler_line r) = false.
Proof. unfold moderate_filler_line. plain_line. Qed.

Lemma affirming_summary (n : nat) (d : Q) : affirming (summary_line n d) = false.
Proof. unfold summary_line. plain_line. Qed.

Lemma affirming_sentiment_line (s : option Sentiment) :
  affirming (sentiment_line s) = affirms_tone s.
Proof.
  unfold sentiment_line, affirms_tone. destruct s as [v|]; cbv zeta.
  - destruct (category v); [reflexivity | reflexivity |].
    destruct (PyNum.ltb (polarity v) 0.05); reflexivity.
  - reflexivity.
Qed.

Lemma affirming_pace_line (m : Metrics) : affirming (pace_line m) = affirms_pace m.
Proof.
  unfold pace_line, affirms_pace.
  destruct (PyNum.gtb (speaking_rate m) 180); [apply affirming_too_fast|].
  destruct (PyNum.ltb (speaking_rate m) 90); [apply affirming_too_slow|].
  apply affirming_balanced.
Qed.

Lemma affirming_filler_line (m : Metrics) :
  affirming (filler_line m) = affirms_fillers m.
Proof.
  unfold filler_line, affirms_fillers.
  destruct (PyNum.gtb (filler_ratio m) 0.08) eqn:H8.
  - apply gtb_gt in H8.
    assert (H3 : PyNum.gtb (filler_ratio m) 0.03 = true).
    { apply gtb_gt. apply Qlt_trans with 0.08; [reflexivity | exact H8]. }
    rewrite H3. apply affirming_high_filler.
  - destruct (PyNum.gtb (filler_ratio m) 0.03);
      [apply affirming_moderate_filler | reflexivity].
Qed.

Lemma affirming_vocabulary_line (m : Metrics) : affirming (vocabulary_line m) = false.
Proof.
  unfold vocabulary_line.
  destruct (PyNum.ltb (vocabulary_richness m) 0.4); [reflexivity|].
  destruct (PyNum.gtb (vocabulary_richness m) 0.7); reflexivity.
Qed.

End FeedbackFacts.

Lemma affirmed_count (s : option Sentiment) (m : Metrics) :
  List.length
    (filter affirming
       [sentiment_line s; pace_line m; filler_line m; vocabulary_line m;
        summary_line (word_count m) (duration_seconds m)])
  = count_true [affirms_tone s; affirms_pace m; affirms_fillers m].
Proof.
  cbn [filter].
  rewrite affirming_sentiment_line, affirming_pace_line, affirming_filler_line,
    affirming_vocabulary_line, affirming_summary.
  unfold count_true.
  destruct (affirms_tone s), (affirms_pace m), (affirms_fillers m); reflexivity.
Qed.

Lemma affirming_lines (s : option Sentiment) (m : Metrics) :
  (affirms_tone s = true <-> sentiment_line s = positive_tone_line) /\
  (affirms_pace m = true <-> pace_line m = balanced_pace_line (speaking_rate m)) /\
  (affirms_fillers m = true <-> filler_line m = few_filler_line).
Proof.
  split; [|split]; split.
  - unfold affirms_tone, sentiment_line. destruct s as [v|]; cbv zeta;
      [|discriminate].
    destruct (category v); [reflexivity | discriminate |].
    destruct (PyNum.ltb (polarity v) 0.05); [discriminate | reflexivity].
  - intro H. rewrite <- affirming_sentiment_line, H. reflexivity.
  - unfold affirms_pace, pace_line.
    destruct (PyNum.gtb (speaking_rate m) 180); [discriminate|].
    destruct (PyNum.ltb (speaking_rate m) 90); [discriminate | reflexivity].
  - intro H. rewrite <- affirming_pace_line, H. apply affirming_balanced.
  - intro H. rewrite <- affirming_filler_line in H.
    unfold filler_line in *.
    destruct (PyNum.gtb (filler_ratio m) 0.08);
      [rewrite affirming_high_filler in H; discriminate|].
    destruct (PyNum.gtb (filler_ratio m) 0.03);
      [rewrite affirming_moderate_filler in H; discriminate | reflexivity].
  - intro H. rewrite <- affirming_filler_line, H. reflexivity.
Qed.

(** C8.  When the stored metrics are not empty, [generate_feedback] returns
    and stores exactly six lines, in the order sentiment, pace, filler,
    vocabulary, summary, closing.  The closing line is the success line
    exactly when at least two of the sentiment, pace and filler lines are the
    affirming ones (positive tone, well-balanced pace, few fillers), and the
    keep-practicing line otherwise. *)
Theorem feedback_six_lines (a : Analyzer) (m : Metrics) :
  metrics (results a) = Some m ->
  let s := sentiment (results a) in
  let n := count_true [affirms_tone s; affirms_pace m; affirms_fillers m] in
  exists closing,
    fst (generate_feedback a)
    = [sentiment_line s; pace_line m; filler_line m; vocabulary_line m;
       summary_line (word_count m) (duration_seconds m); closing] /\
    feedback (results (snd (generate_feedback a))) = fst (generate_feedback a) /\
    List.length (fst (generate_feedback a)) = 6%nat /\
    (closing = success_line <-> (2 <= n)%nat) /\
    (closing = practice_line <-> (n < 2)%nat) /\
    (affirms_tone s = true <-> sentiment_line s = positive_tone_line) /\
    (affirms_pace m = true <-> pace_line m = balanced_pace_line (speaking_rate m)) /\
    (affirms_fillers m = true <-> filler_line m = few_filler_line).
Proof.
  intros Hm. cbv zeta.
  exists (closing_line [sentiment_line (sentiment (results a)); pace_line m;
                        filler_line m; vocabulary_line m;
                        summary_line (word_count m) (duration_seconds m)]).
  unfold generate_feedback, feedback_lines. rewrite Hm. cbn [fst snd app].
  split; [reflexivity|]. split; [reflexivity|]. split; [reflexivity|].
  unfold closing_line. rewrite affirmed_count.
  set (n := count_true _).
  split; [|split; [|apply affirming_lines]].
  - destruct (2 <=? n)%nat eqn:L.
    + apply Nat.leb_le in L. split; [intros _; exact L | reflexivity].
    + apply Nat.leb_gt in L. split; [discriminate | lia].
  - destruct (2 <=? n)%nat eqn:L.
    + apply Nat.leb_le in L. split; [discriminate | lia].
    + apply Nat.leb_gt in L. split; [intros _; exact L | reflexivity].
Qed.

Lemma feedback_six_lines_witness :
  let a := snd (analyze_sentiment (scripted 0.5 UnknownValueError) 0
                  (Some "Today we learn about proofs. Um, they are fun.")
                  (init false)) in
  List.length (fst (generate_feedback a)) = 6%nat /\
  fst (generate_feedback a)
  = [positive_tone_line;
     "🐌 Speaking rate: 9 wpm - Too slow. Increase pace to maintain attention.";
     "🚨 High filler word usage: 11.1% (1 times)";
     rich_vocabulary_line;
     "📊 Session Summary: 9 words in 1.0 minutes";
     practice_line].
Proof.
  cbv zeta.
  destruct (feedback_six_lines
              (snd (analyze_sentiment (scripted 0.5 UnknownValueError) 0
                      (Some "Today we learn about proofs. Um, they are fun.")
                      (init false)))
              _ eq_refl) as [closing (_ & _ & Len & _)].
  split; [exact Len | vm_compute; reflexivity].
Defined.

(** ** Missing files *)

(** C9.  For a path that does not exist, [run_analysis_from_file] returns an
    error record and leaves the analyzer as it was: the transcript is
    ["Analysis failed: Audio file not found: "] followed by the path, the
    metrics are all zero, the sentiment is the neutral default and the
    feedback holds two lines. *)
Theorem missing_file_error_result (E : Collaborators) (now : Q)
    (audio_file : string) (a : Analyzer) :
  path_exists E audio_file = false ->
  let out := run_analysis_from_file E now audio_file a in
  snd out = a /\
  transcript (fst out) = "Analysis failed: Audio file not found: " ++ audio_file /\
  prefix "Analysis failed: " (transcript (fst out)) = true /\
  sentiment (fst out) = Some (mkSentiment 0.0 0.5 Neutral) /\
  (exists m,
      metrics (fst out) = Some m /\
      word_count m = 0%nat /\ speaking_rate m == 0 /\ filler_count m = 0%nat /\
      filler_ratio m == 0 /\ avg_sentence_length m == 0 /\
      vocabulary_richness m == 0 /\ duration_seconds m == 0 /\
      sentence_count m = 0%nat /\ unique_words m = 0%nat /\
      content_words m = 0%nat) /\
  feedback (fst out)
  = ["❌ Analysis error: Audio file not found: " ++ audio_file;
     "Please check your audio file and try again."] /\
  feedback (fst out) <> [].
Proof.
  intro Hmissing. cbv zeta. unfold run_analysis_from_file.
  rewrite Hmissing. cbn [negb fst snd create_error_results transcript sentiment
                           metrics feedback].
  split; [reflexivity|]. split; [reflexivity|]. split; [reflexivity|].
  split; [reflexivity|]. split.
  - eexists. split; [reflexivity|]. cbn. repeat split; reflexivity.
  - split; [reflexivity | discriminate].
Qed.

Lemma missing_file_error_result_witness :
  transcript (fst (run_analysis_from_file (scripted 0.5 (Recognized "hello")) 0
                     "absent.wav" (init true)))
  = "Analysis failed: Audio file not found: absent.wav".
Proof.
  exact (proj1 (proj2 (missing_file_error_result
                         (scripted 0.5 (Recognized "hello")) 0 "absent.wav"
                         (init true) eq_refl))).
Defined.

(** C10.  For a path that does not exist, [transcribe_audio] returns the
    empty string and leaves the analyzer, hence every field of its result
    record, unchanged.  For an existing file, an unintelligible recording, a
    service error and any other exception each store an error message as the
    transcript, change no other field, and return that message. *)
Theorem transcribe_audio_frame (E : Collaborators) (audio_file : string)
    (a : Analyzer) :
  (path_exists E audio_file = false ->
   transcribe_audio E audio_file a = (EmptyString, a)) /\
  (path_exists E audio_file = true ->
   forall msg,
     (recognize E audio_file = UnknownValueError /\ msg = unintelligible_msg) \/
     (exists e, recognize E audio_file = RequestError e /\
                msg = "Speech recognition service error: " ++ e) \/
     (exists e, recognize E audio_file = OtherError e /\
                msg = "Transcription failed: " ++ e) ->
     fst (transcribe_audio E audio_file a) = msg /\
     transcript (results (snd (transcribe_audio E audio_file a))) = msg /\
     snd (transcribe_audio E audio_file a) = with_results (set_transcript msg) a /\
     sentiment (results (snd (transcribe_audio E audio_file a))) = sentiment (results a) /\
     metrics (results (snd (transcribe_audio E audio_file a))) = metrics (results a) /\
     feedback (results (snd (transcribe_audio E audio_file a))) = feedback (results a)).
Proof.
  unfold transcribe_audio. split; intro Hex; rewrite Hex; cbn [negb].
  - reflexivity.
  - intros msg [[R ->] | [[e [R ->]] | [e [R ->]]]]; rewrite R; cbn [fst snd];
      repeat split; reflexivity.
Qed.

(** * Further properties *)

(** ** Bounds on the stored metrics *)

Section MetricBounds.

Import PyNumFacts PyStrFacts.

Lemma max_ge_r (a b : Q) : b <= PyNum.max a b.
Proof.
  unfold PyNum.max. destruct (PyNum.gtb b a) eqn:G.
  - apply Qle_refl.
  - apply gtb_le in G. exact G.
Qed.

Lemma max_ge_l (a b : Q) : a <= PyNum.max a b.
Proof.
  unfold PyNum.max. destruct (PyNum.gtb b a) eqn:G.
  - apply gtb_gt in G. apply Qlt_le_weak. exact G.
  - apply Qle_refl.
Qed.

(** A duration of at least [w / 2.5] seconds caps the rate at 150. *)
Lemma rate_capped (w d : Q) :
  0 <= w -> w / 2.5 <= d ->
  let r := if PyNum.gtb d 0 then (w / d) * 60 else 0 in
  0 <= r <= 150.
Proof.
  intros Hw Hd. cbv zeta. destruct (PyNum.gtb d 0) eqn:G.
  - apply gtb_gt in G.
    assert (Hwd : w <= 2.5 * d).
    { apply Qle_trans with (2.5 * (w / 2.5)).
      - rewrite Qmult_div_r; [apply Qle_refl | discriminate].
      - apply Qmult_le_l; [reflexivity | exact Hd]. }
    split.
    + apply Qle_trans with (0 * 60); [discriminate|].
      apply Qmult_le_compat_r; [|discriminate].
      apply Qle_shift_div_l; [exact G|]. rewrite Qmult_0_l. exact Hw.
    + apply Qle_trans with (2.5 * 60); [|discriminate].
      apply Qmult_le_compat_r; [|discriminate].
      apply Qle_shift_div_r; [exact G | exact Hwd].
  - split; discriminate.
Qed.

Lemma full_metrics_duration (E : Collaborators) (start : option Q) (now : Q)
    (text : string) :
  let m := full_metrics E start now text in
  PyNum.of_nat (word_count m) / 2.5 <= duration_seconds m /\
  (truthy_time start = None -> 60 <= duration_seconds m).
Proof.
  cbv zeta. unfold full_metrics. cbv zeta. cbn [word_count duration_seconds].
  destruct (truthy_time start) as [t|].
  - split; [apply max_ge_r | discriminate].
  - split; [apply max_ge_r | intros _; apply max_ge_l].
Qed.

Lemma full_metrics_rate (E : Collaborators) (start : option Q) (now : Q)
    (text : string) :
  0 <= speaking_rate (full_metrics E start now text) <= 150.
Proof.
  pose proof (full_metrics_duration E start now text) as [D _].
  revert D. unfold full_metrics. cbv zeta.
  cbn [word_count duration_seconds speaking_rate]. intro D.
  apply (rate_capped _ _ (of_nat_nonneg _) D).
Qed.

End MetricBounds.

(** X1.  The speaking rate stored by [calculate_metrics] lies between 0 and
    150 words per minute, whatever the text and the clock: the duration is
    never shorter than [word_count / 2.5] seconds. *)
Theorem speaking_rate_at_most_150 (E : Collaborators) (now : Q) (text : string)
    (a : Analyzer) :
  exists m,
    metrics (results (calculate_metrics E now text a)) = Some m /\
    PyNum.of_nat (word_count m) / 2.5 <= duration_seconds m /\
    0 <= speaking_rate m <= 150.
Proof.
  exists (full_metrics E (start_time a) now text). split; [reflexivity|].
  split.
  - apply full_metrics_duration.
  - apply full_metrics_rate.
Qed.

(** X2.  Without a start timestamp [calculate_metrics] assumes a session
    of at least a minute: the stored duration is exactly 60 seconds for a
    text of up to 150 words and [word_count / 2.5] seconds beyond.  It is
    therefore positive, and the speaking rate is always taken from the
    formula [(word_count / duration) * 60], never from the zero default. *)
Theorem duration_at_least_a_minute (E : Collaborators) (now : Q)
    (text : string) (a : Analyzer) :
  start_time a = None ->
  exists m,
    metrics (results (calculate_metrics E now text a)) = Some m /\
    60 <= duration_seconds m /\
    ((word_count m <= 150)%nat -> duration_seconds m == 60) /\
    ((150 < word_count m)%nat ->
     duration_seconds m == PyNum.of_nat (word_count m) / 2.5) /\
    0 < duration_seconds m /\
    speaking_rate m == (PyNum.of_nat (word_count m) / duration_seconds m) * 60.
Proof.
  intro Hstart.
  exists (full_metrics E (start_time a) now text). split; [reflexivity|].
  pose proof (full_metrics_duration E (start_time a) now text) as [_ D].
  rewrite Hstart in *. specialize (D eq_refl).
  assert (P : 0 < duration_seconds (full_metrics E None now text)).
  { apply Qlt_le_trans with 60; [reflexivity | exact D]. }
  split; [exact D|].
  revert D P. unfold full_metrics. cbv zeta.
  cbn [word_count duration_seconds speaking_rate truthy_time].
  set (n := List.length (safe_tokenize E text)).
  set (w := PyNum.of_nat n).
  intros D P. split; [|split; [|split]].
  - intro Hn. unfold PyNum.max.
    assert (G : PyNum.gtb (w / 2.5) 60 = false).
    { apply PyNumFacts.gtb_le. apply Qle_shift_div_r; [reflexivity|].
      apply Qle_trans with (PyNum.of_nat 150); [|discriminate].
      apply PyNumFacts.of_nat_le. exact Hn. }
    rewrite G. reflexivity.
  - intro Hn. unfold PyNum.max.
    assert (G : PyNum.gtb (w / 2.5) 60 = true).
    { apply PyNumFacts.gtb_gt. apply Qlt_shift_div_l; [reflexivity|].
      apply Qle_lt_trans with (PyNum.of_nat 150); [discriminate|].
      unfold w, PyNum.of_nat, Qlt. simpl. lia. }
    rewrite G. reflexivity.
  - exact P.
  - assert (G : PyNum.gtb (PyNum.max 60 (w / 2.5)) 0 = true)
      by (apply PyNumFacts.gtb_gt; exact P).
    rewrite G. reflexivity.
Qed.

Lemma duration_at_least_a_minute_witness :
  exists m,
    metrics (results (calculate_metrics offline 0 "one two three" (init false))) = Some m /\
    duration_seconds m == 60.
Proof.
  destruct (duration_at_least_a_minute offline 0 "one two three" (init false) eq_refl)
    as [m (M & _ & D & _)].
  exists m. split; [exact M|]. apply D.
  assert (W : option_map word_count (Some m) = Some 3%nat)
    by (rewrite <- M; reflexivity).
  cbn in W. inversion W. lia.
Defined.

(** X3.  In the record stored by [calculate_metrics] the counts are ordered:
    [unique_words <= content_words <= word_count] and
    [filler_count <= word_count]; the average sentence length is
    [word_count / sentence_count] and lies between 0 and the word count. *)
Theorem metric_counts_ordered (E : Collaborators) (now : Q) (text : string)
    (a : Analyzer) :
  exists m,
    metrics (results (calculate_metrics E now text a)) = Some m /\
    (unique_words m <= content_words m)%nat /\
    (content_words m <= word_count m)%nat /\
    (filler_count m <= word_count m)%nat /\
    avg_sentence_length m
      == PyNum.of_nat (word_count m) / PyNum.of_nat (sentence_count m) /\
    0 <= avg_sentence_length m <= PyNum.of_nat (word_count m).
Proof.
  exists (full_metrics E (start_time a) now text). split; [reflexivity|].
  unfold full_metrics. cbv zeta.
  cbn [unique_words content_words word_count filler_count avg_sentence_length
       sentence_count].
  set (words := safe_tokenize E text).
  set (sc := PyNum.max1 (List.length (sentences text))).
  assert (Hsc : (1 <= sc)%nat) by apply PyNumFacts.max1_ge.
  assert (Psc : 0 < PyNum.of_nat sc) by (apply PyNumFacts.of_nat_pos; lia).
  assert (Hw : 0 <= PyNum.of_nat (List.length words))
    by apply PyNumFacts.of_nat_nonneg.
  split; [apply PyStrFacts.distinct_le|].
  split; [rewrite length_map; apply filter_length_le|].
  split; [apply count_fillers_le|].
  split; [reflexivity|].
  split.
  - apply Qle_shift_div_l; [exact Psc|]. rewrite Qmult_0_l. exact Hw.
  - apply Qle_shift_div_r; [exact Psc|].
    apply Qle_trans with (PyNum.of_nat (List.length words) * 1).
    + rewrite Qmult_1_r. apply Qle_refl.
    + rewrite (Qmult_comm _ 1), (Qmult_comm _ (PyNum.of_nat sc)).
      apply Qmult_le_compat_r; [|exact Hw].
      change 1 with (PyNum.of_nat 1). apply PyNumFacts.of_nat_le. exact Hsc.
Qed.

(** ** What [analyze_sentiment] leaves behind *)

Section AnalysisFacts.

Import PyNumFacts.

(** The text [analyze_sentiment] works on. *)
Let subject (arg : option string) (a : Analyzer) : string :=
  match arg with Some t => t | None => transcript (results a) end.

(** The two shapes of the stored result: the degraded one and the scored
    one. *)
Lemma analyze_sentiment_shapes (E : Collaborators) (now : Q)
    (arg : option string) (a : Analyzer) :
  let out := analyze_sentiment E now arg a in
  let text := subject arg a in
  sentiment (results (snd out)) = Some (fst out) /\
  transcript (results (snd out)) = transcript (results a) /\
  ((fst out = neutral_sentiment /\
    metrics (results (snd out)) = Some (basic_metrics text) /\
    (insufficient text = true \/ TextBlob E text = None))
   \/
   (exists p s,
       insufficient text = false /\ TextBlob E text = Some (p, s) /\
       polarity (fst out) = p /\ subjectivity (fst out) = s /\
       category (fst out)
       = (if PyNum.gtb p 0.1 then Positive
          else if PyNum.ltb p (-0.1) then Negative else Neutral) /\
       metrics (results (snd out)) = Some (full_metrics E (start_time a) now text))).
Proof.
  cbv zeta. unfold analyze_sentiment, subject.
  set (text := match arg with Some t => t | None => transcript (results a) end).
  destruct (insufficient text) eqn:I.
  - cbn [fst snd]. split; [reflexivity|]. split; [reflexivity|].
    left. split; [reflexivity|]. split; [reflexivity | left; reflexivity].
  - destruct (TextBlob E text) as [[p s]|] eqn:B; cbn [fst snd].
    + split; [reflexivity|]. split; [reflexivity|].
      right. exists p, s. repeat split; reflexivity.
    + split; [reflexivity|]. split; [reflexivity|].
      left. split; [reflexivity|]. split; [reflexivity | right; reflexivity].
Qed.

Lemma basic_metrics_sentences (text : string) :
  (1 <= sentence_count (basic_metrics text))%nat.
Proof.
  unfold basic_metrics. cbn [sentence_count].
  destruct (is_empty text); [lia | apply max1_ge].
Qed.

Lemma basic_metrics_filler (text : string) : filler_invariant (basic_metrics text).
Proof.
  unfold filler_invariant, basic_metrics. cbv zeta.
  cbn [filler_ratio filler_count word_count]. split.
  - intros _. split.
    + unfold Qdiv. rewrite Qmult_0_l. reflexivity.
    + split; discriminate.
  - intros _. reflexivity.
Qed.

Lemma full_metrics_filler (E : Collaborators) (start : option Q) (now : Q)
    (text : string) :
  filler_invariant (full_metrics E start now text).
Proof.
  unfold filler_invariant, full_metrics. cbv zeta.
  cbn [filler_ratio filler_count word_count].
  apply (ratio_or_zero (count_fillers (safe_tokenize E text))
           (List.length (safe_tokenize E text))).
  apply count_fillers_le.
Qed.

(** Every path of [analyze_sentiment] stores metrics with a rate of at most
    150. *)
Lemma stored_rate_capped (E : Collaborators) (now : Q)
    (arg : option string) (a : Analyzer) :
  exists m,
    metrics (results (snd (analyze_sentiment E now arg a))) = Some m /\
    speaking_rate m <= 150.
Proof.
  destruct (analyze_sentiment_shapes E now arg a) as (_ & _ & [D | F]).
  - destruct D as (_ & M & _). eexists. split; [exact M | discriminate].
  - destruct F as (p & s & _ & _ & _ & _ & _ & M).
    eexists. split; [exact M | apply full_metrics_rate].
Qed.

End AnalysisFacts.

(** X4.  When the text is long enough but the sentiment backend raises,
    [analyze_sentiment] does not fail: it returns and stores the neutral
    default, stores the basic metrics of the text, and has called the
    backend exactly once, on that text. *)
Theorem backend_failure_degrades (E : Collaborators) (now : Q) (text : string)
    (a : Analyzer) :
  insufficient text = false ->
  TextBlob E text = None ->
  let out := analyze_sentiment E now (Some text) a in
  fst out = mkSentiment 0.0 0.5 Neutral /\
  sentiment (results (snd out)) = Some (mkSentiment 0.0 0.5 Neutral) /\
  metrics (results (snd out)) = Some (basic_metrics text) /\
  backend_calls (snd out) = text :: backend_calls a.
Proof.
  intros I B. cbv zeta. unfold analyze_sentiment. rewrite I, B.
  repeat split; reflexivity.
Qed.

Lemma backend_failure_degrades_witness :
  metrics (results (snd (analyze_sentiment offline 0 (Some "hello there")
                           (init false))))
  = Some (mkMetrics 2 120.0 0 0.0 15.0 0.5 60.0 1 2 2).
Proof.
  exact (proj1 (proj2 (proj2 (backend_failure_degrades offline 0 "hello there"
                                (init false) eq_refl eq_refl)))).
Defined.

(** X5.  Whatever the argument, the backend's answer and the state before,
    [analyze_sentiment] leaves a complete result: the stored sentiment is
    the returned one and its category agrees with its polarity by the 0.1
    thresholds; the stored metrics have a sentence count of at least 1, a
    filler ratio that is [filler_count / word_count] (0 without words), a
    vocabulary richness in [0,1] and a speaking rate in [0,150]. *)
Theorem analysis_result_is_complete (E : Collaborators) (now : Q)
    (arg : option string) (a : Analyzer) :
  let out := analyze_sentiment E now arg a in
  sentiment (results (snd out)) = Some (fst out) /\
  (category (fst out) = Positive <-> 0.1 < polarity (fst out)) /\
  (category (fst out) = Negative <-> polarity (fst out) < -0.1) /\
  (category (fst out) = Neutral <->
     -0.1 <= polarity (fst out) /\ polarity (fst out) <= 0.1) /\
  exists m,
    metrics (results (snd out)) = Some m /\
    (1 <= sentence_count m)%nat /\
    filler_invariant m /\
    0 <= vocabulary_richness m <= 1 /\
    0 <= speaking_rate m <= 150.
Proof.
  cbv zeta.
  destruct (analyze_sentiment_shapes E now arg a) as (S & _ & [D | F]).
  - destruct D as (N & M & _). rewrite N.
    split; [rewrite S, N; reflexivity|].
    pose proof (threshold_cases 0.0) as T. cbv zeta in T.
    split; [exact (proj1 T)|]. split; [exact (proj1 (proj2 T))|].
    split; [exact (proj2 (proj2 T))|].
    eexists. split; [exact M|].
    split; [apply basic_metrics_sentences|].
    split; [apply basic_metrics_filler|].
    split; split; discriminate.
  - destruct F as (p & s & _ & _ & P & _ & C & M).
    split; [exact S|].
    pose proof (threshold_cases p) as T. cbv zeta in T.
    rewrite C, P.
    split; [exact (proj1 T)|]. split; [exact (proj1 (proj2 T))|].
    split; [exact (proj2 (proj2 T))|].
    eexists. split; [exact M|].
    split; [apply PyNumFacts.max1_ge|].
    split; [apply full_metrics_filler|].
    split; [apply full_metrics_richness | apply full_metrics_rate].
Qed.

(** ** Feedback after an analysis *)

Section PipelineFacts.

Import PyNumFacts PyStrFacts.

Lemma bolt_too_fast (r : Q) : prefix "⚡" (too_fast_line r) = true.
Proof. reflexivity. Qed.

Lemma bolt_sentiment_line (s : option Sentiment) :
  prefix "⚡" (sentiment_line s) = false.
Proof.
  unfold sentiment_line. cbv zeta.
  destruct (match s with Some v => category v | None => Neutral end);
    [reflexivity | reflexivity |].
  destruct (PyNum.ltb _ 0.05); reflexivity.
Qed.

Lemma bolt_pace_line (m : Metrics) :
  speaking_rate m <= 180 -> prefix "⚡" (pace_line m) = false.
Proof.
  intro H. unfold pace_line. apply gtb_le in H. rewrite H.
  destruct (PyNum.ltb (speaking_rate m) 90); reflexivity.
Qed.

Lemma bolt_filler_line (m : Metrics) : prefix "⚡" (filler_line m) = false.
Proof.
  unfold filler_line.
  destruct (PyNum.gtb (filler_ratio m) 0.08); [reflexivity|].
  destruct (PyNum.gtb (filler_ratio m) 0.03); reflexivity.
Qed.

Lemma bolt_vocabulary_line (m : Metrics) : prefix "⚡" (vocabulary_line m) = false.
Proof.
  unfold vocabulary_line.
  destruct (PyNum.ltb (vocabulary_richness m) 0.4); [reflexivity|].
  destruct (PyNum.gtb (vocabulary_richness m) 0.7); reflexivity.
Qed.

Lemma bolt_closing_line (so_far : list string) :
  prefix "⚡" (closing_line so_far) = false.
Proof.
  unfold closing_line. destruct (2 <=? _)%nat; reflexivity.
Qed.

(** The six lines, for stored metrics [m]. *)
Lemma feedback_lines_some (r : Results) (m : Metrics) :
  metrics r = Some m ->
  feedback_lines r
  = [sentiment_line (sentiment r); pace_line m; filler_line m; vocabulary_line m;
     summary_line (word_count m) (duration_seconds m);
     closing_line [sentiment_line (sentiment r); pace_line m; filler_line m;
                   vocabulary_line m;
                   summary_line (word_count m) (duration_seconds m)]].
Proof.
  intro H. unfold feedback_lines. rewrite H. reflexivity.
Qed.

Lemma slow_rate_no_bolt (r : Results) (m : Metrics) (rate : Q) :
  metrics r = Some m -> speaking_rate m <= 180 ->
  ~ In (too_fast_line rate) (feedback_lines r).
Proof.
  intros Hm Hr Hin. rewrite (feedback_lines_some r m Hm) in Hin.
  pose proof (bolt_too_fast rate) as B.
  cbn [In] in Hin.
  destruct Hin as [H | [H | [H | [H | [H | [H | []]]]]]]; rewrite <- H in B.
  - rewrite bolt_sentiment_line in B. discriminate.
  - rewrite (bolt_pace_line m Hr) in B. discriminate.
  - rewrite bolt_filler_line in B. discriminate.
  - rewrite bolt_vocabulary_line in B. discriminate.
  - discriminate B.
  - rewrite bolt_closing_line in B. discriminate.
Qed.

End PipelineFacts.

(** X6.  Feedback generated right after [analyze_sentiment] always has six
    lines and never tells the speaker to slow down: the stored rate is at
    most 150 words per minute, below the 180 of the "Too fast" rule, so the
    pace line is the "Too slow" or the "Well-balanced" one. *)
Theorem feedback_never_too_fast (E : Collaborators) (now : Q)
    (arg : option string) (a : Analyzer) :
  let lines := fst (generate_feedback (snd (analyze_sentiment E now arg a))) in
  List.length lines = 6%nat /\
  (forall rate, ~ In (too_fast_line rate) lines) /\
  exists m,
    metrics (results (snd (analyze_sentiment E now arg a))) = Some m /\
    nth 1 lines EmptyString = pace_line m /\
    (pace_line m = too_slow_line (speaking_rate m) \/
     pace_line m = balanced_pace_line (speaking_rate m)).
Proof.
  cbv zeta.
  destruct (stored_rate_capped E now arg a) as (m & M & R).
  unfold generate_feedback. cbn [fst].
  rewrite (feedback_lines_some _ m M).
  assert (R180 : speaking_rate m <= 180).
  { apply Qle_trans with 150; [exact R | discriminate]. }
  split; [reflexivity|]. split.
  - intros rate. rewrite <- (feedback_lines_some _ m M).
    apply (slow_rate_no_bolt _ m rate M R180).
  - exists m. split; [exact M|]. split; [reflexivity|].
    unfold pace_line. apply PyNumFacts.gtb_le in R180. rewrite R180.
    destruct (PyNum.ltb (speaking_rate m) 90); [left | right]; reflexivity.
Qed.

(** X7.  When nothing was analysed, because the text is too short or the
    backend raised, the feedback that follows still reads as a success: a
    neutral-tone line, a well-balanced pace of 120 wpm, few fillers, good
    vocabulary, a summary of the word count over 1.0 minutes, and the
    "Great job" closing line. *)
Theorem degraded_feedback_congratulates (E : Collaborators) (now : Q)
    (text : string) (a : Analyzer) :
  insufficient text = true \/ TextBlob E text = None ->
  fst (generate_feedback (snd (analyze_sentiment E now (Some text) a)))
  = [neutral_tone_line;
     "✅ Speaking rate: 120 wpm - Well-balanced pace.";
     few_filler_line;
     good_vocabulary_line;
     "📊 Session Summary: "
       ++ PyFmt.of_count (List.length (if is_empty text then [] else split_ws text))
       ++ " words in 1.0 minutes";
     success_line].
Proof.
  intro H.
  assert (S : sentiment (results (snd (analyze_sentiment E now (Some text) a)))
              = Some neutral_sentiment /\
              metrics (results (snd (analyze_sentiment E now (Some text) a)))
              = Some (basic_metrics text)).
  { unfold analyze_sentiment. destruct (insufficient text) eqn:I.
    - split; reflexivity.
    - destruct H as [H | H]; [discriminate H|]. rewrite H. split; reflexivity. }
  destruct S as [S M].
  unfold generate_feedback. cbn [fst].
  rewrite (feedback_lines_some _ _ M), S.
  unfold closing_line. rewrite affirmed_count.
  reflexivity.
Qed.

Lemma degraded_feedback_congratulates_witness :
  fst (generate_feedback
         (snd (analyze_sentiment (scripted 0.9 UnknownValueError) 0
                 (Some "café") (init false))))
  = [neutral_tone_line;
     "✅ Speaking rate: 120 wpm - Well-balanced pace.";
     few_filler_line;
     good_vocabulary_line;
     "📊 Session Summary: 1 words in 1.0 minutes";
     success_line].
Proof.
  exact (degraded_feedback_congratulates (scripted 0.9 UnknownValueError) 0
           "café" (init false) (or_introl eq_refl)).
Defined.

(** ** Analysing a file that exists *)

Section FileFacts.

Lemma code_points_ascii (c : ascii) (s : string) :
  (N_of_ascii c <? 128)%N = true ->
  code_points (String c s) = N_of_ascii c :: code_points s.
Proof.
  intro H. cbn [code_points]. cbv zeta.
  assert (L : (N_of_ascii c <? 192)%N = true).
  { apply N.ltb_lt. apply N.ltb_lt in H. lia. }
  rewrite L. reflexivity.
Qed.

Lemma rstrip_points_keep (n : N) (ps : list N) :
  is_space_point n = false -> rstrip_points (n :: ps) = n :: rstrip_points ps.
Proof.
  intro H. cbn [rstrip_points]. destruct (rstrip_points ps); [|reflexivity].
  rewrite H. reflexivity.
Qed.

(** A text that opens with five ASCII characters that are not blank is long
    enough to be analysed. *)
Lemma five_solid_chars (c1 c2 c3 c4 c5 : ascii) (rest : string) :
  forallb (fun c => (N_of_ascii c <? 128)%N && negb (is_space_point (N_of_ascii c)))
          [c1; c2; c3; c4; c5] = true ->
  insufficient (String c1 (String c2 (String c3 (String c4 (String c5 rest)))))
  = false.
Proof.
  intro H. cbn [forallb] in H.
  repeat (apply andb_true_iff in H; destruct H as [? H]).
  repeat match goal with
         | A : _ && negb _ = true |- _ =>
             apply andb_true_iff in A; destruct A as [? A];
             apply negb_true_iff in A
         end.
  unfold insufficient, stripped_len. cbn [is_empty orb].
  rewrite !code_points_ascii by assumption.
  cbn [lstrip_points].
  match goal with
  | A : is_space_point (N_of_ascii c1) = false |- _ => rewrite A
  end.
  rewrite !rstrip_points_keep by assumption. reflexivity.
Qed.

Lemma error_messages_are_analysed (e : string) :
  insufficient unintelligible_msg = false /\
  insufficient ("Speech recognition service error: " ++ e) = false /\
  insufficient ("Transcription failed: " ++ e) = false.
Proof.
  split; [reflexivity|].
  split; apply five_solid_chars; reflexivity.
Qed.

End FileFacts.

(** X8.  For a file that exists, [run_analysis_from_file] returns the record
    it has stored; the transcript of that record is what [transcribe_audio]
    returned (the recognized text when recognition succeeds), sentiment and
    metrics are present, and the feedback has six lines. *)
Theorem existing_file_is_analysed (E : Collaborators) (now : Q)
    (audio_file : string) (a : Analyzer) :
  path_exists E audio_file = true ->
  let out := run_analysis_from_file E now audio_file a in
  fst out = results (snd out) /\
  transcript (fst out) = fst (transcribe_audio E audio_file a) /\
  (forall t, recognize E audio_file = Recognized t -> transcript (fst out) = t) /\
  (exists s, sentiment (fst out) = Some s) /\
  (exists m, metrics (fst out) = Some m) /\
  List.length (feedback (fst out)) = 6%nat.
Proof.
  intro Hex. cbv zeta. unfold run_analysis_from_file. rewrite Hex. cbn [negb].
  destruct (transcribe_audio E audio_file a) as [t a1] eqn:T.
  assert (Tr : transcript (results a1) = t).
  { unfold transcribe_audio in T. rewrite Hex in T. cbn [negb] in T.
    destruct (recognize E audio_file); inversion T; reflexivity. }
  destruct (analyze_sentiment E now (Some t) a1) as [s a2] eqn:A.
  pose proof (analyze_sentiment_shapes E now (Some t) a1) as Sh.
  cbv zeta in Sh. rewrite A in Sh. cbn [fst snd] in Sh.
  destruct Sh as (S & Tk & Sh).
  destruct (stored_rate_capped E now (Some t) a1) as (m & M & _).
  rewrite A in M. cbn [snd] in M.
  unfold generate_feedback. cbn [fst snd with_results results set_feedback
                                   transcript sentiment metrics feedback].
  split; [reflexivity|]. split; [rewrite Tk; exact Tr|]. split.
  - intros t' R. rewrite Tk, Tr.
    unfold transcribe_audio in T. rewrite Hex, R in T. cbn [negb] in T.
    inversion T. reflexivity.
  - split; [exists s; exact S|]. split; [exists m; exact M|].
    rewrite (feedback_lines_some _ m M). reflexivity.
Qed.

Lemma existing_file_is_analysed_witness :
  transcript (fst (run_analysis_from_file
                     (scripted 0.5 (Recognized "welcome to the lecture")) 0
                     "lecture.wav" (init false)))
  = "welcome to the lecture".
Proof.
  destruct (existing_file_is_analysed
              (scripted 0.5 (Recognized "welcome to the lecture")) 0
              "lecture.wav" (init false) eq_refl) as (_ & _ & R & _).
  apply R. reflexivity.
Defined.

(** X9.  When the file exists but recognition fails, the error message takes
    the place of the transcript for the rest of the run: it is stored as the
    transcript, it is long enough to pass the length test, and it is the
    text handed to the sentiment backend. *)
Theorem error_message_is_scored (E : Collaborators) (now : Q)
    (audio_file : string) (a : Analyzer) (msg : string) :
  path_exists E audio_file = true ->
  (recognize E audio_file = UnknownValueError /\ msg = unintelligible_msg) \/
  (exists e, recognize E audio_file = RequestError e /\
             msg = "Speech recognition service error: " ++ e) \/
  (exists e, recognize E audio_file = OtherError e /\
             msg = "Transcription failed: " ++ e) ->
  let out := run_analysis_from_file E now audio_file a in
  transcript (fst out) = msg /\
  backend_calls (snd out) = msg :: backend_calls a /\
  (forall p s, TextBlob E msg = Some (p, s) ->
     option_map polarity (sentiment (fst out)) = Some p).
Proof.
  intros Hex Hfail. cbv zeta.
  assert (I : insufficient msg = false).
  { destruct Hfail as [[_ ->] | [[e [_ ->]] | [e [_ ->]]]].
    - apply (error_messages_are_analysed EmptyString).
    - apply (error_messages_are_analysed e).
    - apply (error_messages_are_analysed e). }
  assert (T : transcribe_audio E audio_file a
              = (msg, with_results (set_transcript msg) a)).
  { unfold transcribe_audio. rewrite Hex. cbn [negb].
    destruct Hfail as [[R ->] | [[e [R ->]] | [e [R ->]]]]; rewrite R;
      reflexivity. }
  unfold run_analysis_from_file. rewrite Hex, T. cbn [negb].
  unfold analyze_sentiment. rewrite I.
  destruct (TextBlob E msg) as [[p s]|] eqn:B.
  - cbn. split; [reflexivity|]. split; [reflexivity|].
    intros p' s' Eq. inversion Eq. reflexivity.
  - cbn. split; [reflexivity|]. split; [reflexivity|].
    intros p' s' Eq. discriminate Eq.
Qed.

Lemma error_message_is_scored_witness :
  backend_calls (snd (run_analysis_from_file (scripted 0.5 UnknownValueError) 0
                        "lecture.wav" (init false)))
  = [unintelligible_msg].
Proof.
  exact (proj1 (proj2 (error_message_is_scored (scripted 0.5 UnknownValueError) 0
                         "lecture.wav" (init false) unintelligible_msg
                         eq_refl (or_introl (conj eq_refl eq_refl))))).
Defined.

(** ** Regenerating feedback *)

(** X10.  [generate_feedback] replaces the stored feedback instead of
    extending it: it yields one line when no metrics are stored and six
    otherwise, touches no other field, and a second call returns the same
    lines and the same state as the first. *)
Theorem generate_feedback_is_stable (a : Analyzer) :
  let out := generate_feedback a in
  (metrics (results a) = None -> fst out = [no_metrics_line]) /\
  (metrics (results a) <> None -> List.length (fst out) = 6%nat) /\
  feedback (results (snd out)) = fst out /\
  transcript (results (snd out)) = transcript (results a) /\
  sentiment (results (snd out)) = sentiment (results a) /\
  metrics (results (snd out)) = metrics (results a) /\
  backend_calls (snd out) = backend_calls a /\
  generate_feedback (snd out) = out.
Proof.
  cbv zeta. unfold generate_feedback. cbn [fst snd].
  split; [|split].
  - intro H. unfold feedback_lines. rewrite H. reflexivity.
  - intro H. destruct (metrics (results a)) as [m|] eqn:M; [|contradiction].
    rewrite (feedback_lines_some _ m M). reflexivity.
  - repeat split; reflexivity.
Qed.

(** ** Live updates *)

Section LiveFacts.

Import PyNumFacts.

(** What a live update writes, when it does not raise. *)
Lemma analyze_live_sentiment_some (E : Collaborators) (now : Q) (a a' : Analyzer) :
  analyze_live_sentiment E now a = Some a' ->
  (is_empty (strip_ws (live_transcript a)) = true /\ a' = a) \/
  (is_empty (strip_ws (live_transcript a)) = false /\
   exists p s ls lm,
     TextBlob E (live_transcript a) = Some (p, s) /\
     a' = with_results (set_live ls lm) (call_backend (live_transcript a) a) /\
     live_polarity ls = p /\
     live_word_count lm = List.length (safe_tokenize E (live_transcript a)) /\
     live_filler_count lm = count_fillers (safe_tokenize E (live_transcript a)) /\
     live_filler_ratio lm
     = (if (0 <? live_word_count lm)%nat
        then PyNum.of_nat (live_filler_count lm) / PyNum.of_nat (live_word_count lm)
        else 0) /\
     session_time lm
     = match truthy_time (start_time a) with Some t => now - t | None => 1 end /\
     live_speaking_rate lm
     = (if PyNum.gtb (session_time lm) 0
        then (PyNum.of_nat (live_word_count lm) / session_time lm) * 60 else 0)).
Proof.
  unfold analyze_live_sentiment.
  destruct (is_empty (strip_ws (live_transcript a))) eqn:B.
  - intro H. inversion H. left. split; reflexivity.
  - destruct (TextBlob E (live_transcript a)) as [[p s]|] eqn:T; [|discriminate].
    intro H. inversion H. right. split; [reflexivity|].
    eexists p, s, _, _. split; [reflexivity|]. split; [reflexivity|].
    cbn [live_polarity live_word_count live_filler_count live_filler_ratio
         session_time live_speaking_rate].
    repeat split; reflexivity.
Qed.

End LiveFacts.

(** X11.  A live update that returns never touches the final results or the
    session: transcript, sentiment, metrics and feedback, the live
    transcript, the start time and the recording flag stay as they were; on
    a blank live transcript nothing changes at all and the backend is not
    called. *)
Theorem live_update_frame (E : Collaborators) (now : Q) (a a' : Analyzer) :
  analyze_live_sentiment E now a = Some a' ->
  transcript (results a') = transcript (results a) /\
  sentiment (results a') = sentiment (results a) /\
  metrics (results a') = metrics (results a) /\
  feedback (results a') = feedback (results a) /\
  live_transcript a' = live_transcript a /\
  start_time a' = start_time a /\
  is_recording a' = is_recording a /\
  (is_empty (strip_ws (live_transcript a)) = true -> a' = a) /\
  (is_empty (strip_ws (live_transcript a)) = false ->
   backend_calls a' = live_transcript a :: backend_calls a).
Proof.
  intro H. apply analyze_live_sentiment_some in H.
  destruct H as [[B ->] | [B (p & s & ls & lm & _ & -> & _)]].
  - repeat split; try reflexivity. intro C. rewrite B in C. discriminate C.
  - repeat split; try reflexivity. intro C. rewrite B in C. discriminate C.
Qed.

Lemma live_update_frame_witness :
  analyze_live_sentiment (scripted 0.5 UnknownValueError) 5 (recording 2 "   ")
  = Some (recording 2 "   ").
Proof.
  destruct (analyze_live_sentiment (scripted 0.5 UnknownValueError) 5
              (recording 2 "   ")) as [a'|] eqn:A; [|discriminate A].
  destruct (live_update_frame _ _ _ _ A) as (_ & _ & _ & _ & _ & _ & _ & B & _).
  rewrite (B eq_refl). reflexivity.
Defined.

(** X12.  The live metrics written by an update satisfy the same filler
    invariant as the final ones: the live filler ratio is the live filler
    count over the live word count, within [0,1], and 0 when no word has
    been heard; the session time is the time since the start. *)
Theorem live_metrics_invariant (E : Collaborators) (now t : Q) (a a' : Analyzer) :
  analyze_live_sentiment E now a = Some a' ->
  is_empty (strip_ws (live_transcript a)) = false ->
  start_time a = Some t -> ~ t == 0 ->
  exists lm,
    live_metrics (results a') = Some lm /\
    live_word_count lm = List.length (safe_tokenize E (live_transcript a)) /\
    (live_filler_count lm <= live_word_count lm)%nat /\
    ((0 < live_word_count lm)%nat ->
     live_filler_ratio lm
       == PyNum.of_nat (live_filler_count lm) / PyNum.of_nat (live_word_count lm)
     /\ 0 <= live_filler_ratio lm <= 1) /\
    (live_word_count lm = 0%nat -> live_filler_ratio lm == 0) /\
    session_time lm == now - t.
Proof.
  intros H B St Nz. apply analyze_live_sentiment_some in H.
  destruct H as [[B' _] | [_ (p & s & ls & lm & _ & -> & _ & W & F & R & T & _)]].
  - rewrite B in B'. discriminate B'.
  - exists lm. split; [reflexivity|]. split; [exact W|].
    assert (Le : (live_filler_count lm <= live_word_count lm)%nat).
    { rewrite W, F. apply count_fillers_le. }
    split; [exact Le|].
    pose proof (ratio_or_zero _ _ Le) as Z. cbv zeta in Z. rewrite <- R in Z.
    split; [exact (proj1 Z)|]. split; [exact (proj2 Z)|].
    rewrite T, St, (truthy_time_some t Nz). reflexivity.
Qed.

Lemma live_metrics_invariant_witness :
  exists a' lm,
    analyze_live_sentiment (scripted 0.5 UnknownValueError) 5
      (recording 2 " um hello there") = Some a' /\
    live_metrics (results a') = Some lm /\
    live_word_count lm = 3%nat /\
    session_time lm == 5 - 2.
Proof.
  destruct (analyze_live_sentiment (scripted 0.5 UnknownValueError) 5
              (recording 2 " um hello there")) as [a'|] eqn:L; [|discriminate L].
  destruct (live_metrics_invariant (scripted 0.5 UnknownValueError) 5 2
              (recording 2 " um hello there") a' L eq_refl eq_refl)
    as (lm & M & W & _ & _ & _ & T); [discriminate|].
  exists a', lm. split; [reflexivity|]. split; [exact M|].
  split; [exact W | exact T].
Defined.

(** ** Ending a live session *)

Section StopFacts.

Lemma stop_live_recording_blank (E : Collaborators) (now : Q) (a : Analyzer) :
  is_empty (strip_ws (live_transcript a)) = true ->
  stop_live_recording E now a = set_recording false a.
Proof.
  intro B. unfold stop_live_recording. cbn [set_recording live_transcript].
  rewrite B. reflexivity.
Qed.

Lemma stop_live_recording_spoken (E : Collaborators) (now : Q) (a : Analyzer) :
  is_empty (strip_ws (live_transcript a)) = false ->
  stop_live_recording E now a
  = snd (generate_feedback
           (snd (analyze_sentiment E now None
                   (with_results (set_transcript (strip_ws (live_transcript a)))
                                 (set_recording false a))))).
Proof.
  intro B. unfold stop_live_recording. cbn [set_recording live_transcript].
  rewrite B.
  destruct (analyze_sentiment E now None _) as [s a2]. reflexivity.
Qed.

(** [analyze_sentiment] leaves the session fields alone. *)
Lemma analyze_sentiment_session (E : Collaborators) (now : Q)
    (arg : option string) (a : Analyzer) :
  let a' := snd (analyze_sentiment E now arg a) in
  is_recording a' = is_recording a /\
  live_transcript a' = live_transcript a /\
  start_time a' = start_time a /\
  mic_available a' = mic_available a.
Proof.
  cbv zeta. unfold analyze_sentiment.
  destruct (insufficient _); [repeat split; reflexivity|].
  destruct (TextBlob E _) as [[p s]|]; repeat split; reflexivity.
Qed.

End StopFacts.

(** X13.  [stop_live_recording] always clears the recording flag and keeps
    the live transcript.  If nothing but blanks was heard, the results stay
    as they were and the backend is not called.  Otherwise the trimmed live
    transcript becomes the transcript, sentiment and metrics are stored, and
    the feedback has six lines. *)
Theorem stop_live_recording_outcome (E : Collaborators) (now : Q) (a : Analyzer) :
  let a' := stop_live_recording E now a in
  is_recording a' = false /\
  live_transcript a' = live_transcript a /\
  (is_empty (strip_ws (live_transcript a)) = true ->
   results a' = results a /\ backend_calls a' = backend_calls a) /\
  (is_empty (strip_ws (live_transcript a)) = false ->
   transcript (results a') = strip_ws (live_transcript a) /\
   (exists s, sentiment (results a') = Some s) /\
   (exists m, metrics (results a') = Some m) /\
   List.length (feedback (results a')) = 6%nat).
Proof.
  cbv zeta. destruct (is_empty (strip_ws (live_transcript a))) eqn:B.
  - rewrite (stop_live_recording_blank E now a B).
    split; [reflexivity|]. split; [reflexivity|].
    split; [intros _; split; reflexivity | discriminate].
  - rewrite (stop_live_recording_spoken E now a B).
    set (a1 := with_results (set_transcript (strip_ws (live_transcript a)))
                            (set_recording false a)).
    destruct (analyze_sentiment_session E now None a1) as (R & L & _).
    destruct (analyze_sentiment_shapes E now None a1) as (S & T & _).
    destruct (stored_rate_capped E now None a1) as (m & M & _).
    unfold generate_feedback.
    cbn [fst snd with_results results set_feedback is_recording live_transcript
         transcript sentiment metrics feedback].
    split; [exact R|]. split; [exact L|]. split; [discriminate|].
    intros _. split; [exact T|]. split; [eexists; exact S|].
    split; [exists m; exact M|].
    rewrite (feedback_lines_some _ m M). reflexivity.
Qed.

(** ** The listening loop *)

Section LoopFacts.

Variable E : Collaborators.

Lemma append_assoc (x y z : string) : (x ++ y) ++ z = x ++ (y ++ z).
Proof.
  induction x as [|c x IH]; simpl; [reflexivity | rewrite IH; reflexivity].
Qed.

(** A live update keeps the session fields and the final results. *)
Lemma live_update_session (now : Q) (a a' : Analyzer) :
  analyze_live_sentiment E now a = Some a' ->
  is_recording a' = is_recording a /\
  live_transcript a' = live_transcript a /\
  start_time a' = start_time a /\
  mic_available a' = mic_available a /\
  transcript (results a') = transcript (results a) /\
  sentiment (results a') = sentiment (results a) /\
  metrics (results a') = metrics (results a) /\
  feedback (results a') = feedback (results a).
Proof.
  intro H. apply analyze_live_sentiment_some in H.
  destruct H as [[_ ->] | [_ (p & s & ls & lm & _ & -> & _)]];
    repeat split; reflexivity.
Qed.

Lemma live_loop_quiet (turns : list (Q * Chunk)) (a : Analyzer) :
  is_recording a = true ->
  live_loop E (filter eventful turns) a = live_loop E turns a.
Proof.
  revert a. induction turns as [|[now turn] rest IH]; intros a Rec;
    [reflexivity|].
  destruct turn as [c| |e| | |e]; cbn [filter eventful snd live_loop];
    rewrite ?Rec; cbn [negb]; try (apply IH; exact Rec); try reflexivity.
  destruct (analyze_live_sentiment E now (hear c a)) as [a2|] eqn:L;
    [|reflexivity].
  apply IH. destruct (live_update_session now (hear c a) a2 L) as (R & _).
  rewrite R. exact Rec.
Qed.

(** A run of recognized chunks, with a backend that answers, appends each
    chunk after a space and stays in the loop. *)
Lemma live_loop_heard (chunks : list (Q * string)) (rest : list (Q * Chunk))
    (a : Analyzer) :
  (forall text, TextBlob E text <> None) ->
  is_recording a = true ->
  exists a1,
    live_loop E (map (fun c => (fst c, Heard (snd c))) chunks ++ rest) a
    = live_loop E rest a1 /\
    live_transcript a1 = live_transcript a ++ spoken (map snd chunks) /\
    is_recording a1 = true /\
    start_time a1 = start_time a /\
    transcript (results a1) = transcript (results a) /\
    sentiment (results a1) = sentiment (results a) /\
    metrics (results a1) = metrics (results a) /\
    feedback (results a1) = feedback (results a).
Proof.
  intro Total. revert a.
  induction chunks as [|[now c] chunks IH]; intros a Rec.
  - exists a. cbn [map app spoken]. repeat split; try reflexivity; try exact Rec.
    clear. induction (live_transcript a) as [|x s IHs]; simpl;
      [reflexivity | rewrite <- IHs; reflexivity].
  - cbn [map app fst snd live_loop]. rewrite Rec. cbn [negb].
    destruct (analyze_live_sentiment E now (hear c a)) as [a2|] eqn:L.
    + destruct (live_update_session now (hear c a) a2 L)
        as (R & T & S & _ & T1 & T2 & T3 & T4).
      cbn [hear is_recording live_transcript start_time results] in *.
      assert (Rec2 : is_recording a2 = true) by (rewrite R; exact Rec).
      destruct (IH a2 Rec2) as (a1 & Loop & LT & R1 & S1 & U1 & U2 & U3 & U4).
      exists a1. split; [exact Loop|].
      split.
      { rewrite LT, T. cbn [spoken]. rewrite !append_assoc. reflexivity. }
      split; [exact R1|]. split; [rewrite S1; exact S|].
      split; [rewrite U1; exact T1|]. split; [rewrite U2; exact T2|].
      split; [rewrite U3; exact T3 | rewrite U4; exact T4].
    + exfalso. unfold analyze_live_sentiment in L.
      destruct (is_empty (strip_ws (live_transcript (hear c a)))); [discriminate|].
      destruct (TextBlob E (live_transcript (hear c a))) as [[p s]|] eqn:B;
        [discriminate|]. exact (Total _ B).
Qed.

End LoopFacts.

(** X14.  Chunks that are not understood, recognizer service errors and
    listen timeouts neither change the session nor end it: dropping those
    turns from a run of [start_live_recording] gives the same outcome. *)
Theorem quiet_turns_are_skipped (E : Collaborators) (start : Q)
    (ambient_ok : bool) (turns : list (Q * Chunk)) (a : Analyzer) :
  start_live_recording E start ambient_ok (filter eventful turns) a
  = start_live_recording E start ambient_ok turns a.
Proof.
  unfold start_live_recording.
  destruct (negb (mic_available a)); [reflexivity|].
  destruct (negb (calibrate_microphone ambient_ok (begin_recording start a)));
    [reflexivity|].
  apply live_loop_quiet. reflexivity.
Qed.

(** X15.  Without a microphone [start_live_recording] returns at once and
    changes nothing.  With one, a failed calibration returns before the
    loop, without a final analysis: the results are untouched, the live
    transcript is empty and the recording flag is left set. *)
Theorem recording_does_not_start (E : Collaborators) (start : Q)
    (ambient_ok : bool) (turns : list (Q * Chunk)) (a : Analyzer) :
  (mic_available a = false ->
   start_live_recording E start ambient_ok turns a = Returned a) /\
  (mic_available a = true -> ambient_ok = false ->
   exists a',
     start_live_recording E start ambient_ok turns a = Returned a' /\
     results a' = results a /\ backend_calls a' = backend_calls a /\
     live_transcript a' = EmptyString /\ start_time a' = Some start /\
     is_recording a' = true).
Proof.
  unfold start_live_recording, calibrate_microphone. split.
  - intro M. rewrite M. reflexivity.
  - intros M C. rewrite M, C. cbn [negb begin_recording mic_available].
    rewrite M. cbn [negb].
    eexists. split; [reflexivity|]. repeat split; reflexivity.
Qed.

(** X16.  A session in which every chunk is recognized and the backend
    answers, ended by an interrupt, returns with the recording flag cleared
    and a live transcript made of the chunks, each after a space.  If that
    text is not blank, its trimmed form is the final transcript and the
    feedback has six lines. *)
Theorem interrupted_session_outcome (E : Collaborators) (start stop : Q)
    (chunks : list (Q * string)) (a : Analyzer) :
  mic_available a = true ->
  (forall text, TextBlob E text <> None) ->
  exists a',
    start_live_recording E start true
      (map (fun c => (fst c, Heard (snd c))) chunks ++ [(stop, KeyboardInterrupt)]) a
    = Returned a' /\
    is_recording a' = false /\
    start_time a' = Some start /\
    live_transcript a' = spoken (map snd chunks) /\
    (is_empty (strip_ws (spoken (map snd chunks))) = false ->
     transcript (results a') = strip_ws (spoken (map snd chunks)) /\
     List.length (feedback (results a')) = 6%nat) /\
    (is_empty (strip_ws (spoken (map snd chunks))) = true ->
     transcript (results a') = transcript (results a) /\
     feedback (results a') = feedback (results a)).
Proof.
  intros Mic Total. unfold start_live_recording, calibrate_microphone.
  rewrite Mic. cbn [negb begin_recording mic_available]. rewrite Mic. cbn [negb].
  destruct (live_loop_heard E chunks [(stop, KeyboardInterrupt)]
              (begin_recording start a) Total eq_refl)
    as (a1 & Loop & LT & Rec & St & T1 & _ & _ & T4).
  cbn [begin_recording live_transcript start_time results append] in LT, St, T1, T4.
  rewrite Loop. cbn [live_loop]. rewrite Rec. cbn [negb].
  exists (stop_live_recording E stop a1). split; [reflexivity|].
  destruct (is_empty (strip_ws (live_transcript a1))) eqn:B.
  - rewrite (stop_live_recording_blank E stop a1 B).
    cbn [set_recording is_recording start_time live_transcript results].
    rewrite <- LT, B.
    split; [reflexivity|]. split; [exact St|]. split; [reflexivity|].
    split; [discriminate|]. intros _. split; [exact T1 | exact T4].
  - rewrite (stop_live_recording_spoken E stop a1 B).
    set (a2 := with_results (set_transcript (strip_ws (live_transcript a1)))
                            (set_recording false a1)).
    destruct (analyze_sentiment_session E stop None a2) as (R & L & S & _).
    destruct (analyze_sentiment_shapes E stop None a2) as (_ & T & _).
    destruct (stored_rate_capped E stop None a2) as (m & M & _).
    unfold generate_feedback.
    cbn [fst snd with_results results set_feedback is_recording live_transcript
         start_time transcript feedback].
    rewrite <- LT, B.
    split; [exact R|]. split; [rewrite S; exact St|]. split; [exact L|].
    split; [|discriminate].
    intros _. split; [exact T|].
    rewrite (feedback_lines_some _ m M). reflexivity.
Qed.

Lemma interrupted_session_outcome_witness :
  exists a',
    start_live_recording (scripted 0.5 UnknownValueError) 0 true
      [(10, Heard "good morning"); (20, Heard "everyone"); (25, KeyboardInterrupt)]
      (init true)
    = Returned a' /\
    transcript (results a') = "good morning everyone".
Proof.
  assert (Total : forall text,
             TextBlob (scripted 0.5 UnknownValueError) text <> None)
    by (intros text; discriminate).
  destruct (interrupted_session_outcome (scripted 0.5 UnknownValueError) 0 25
              [(10, "good morning"); (20, "everyone")] (init true)
              eq_refl Total) as (a' & Run & _ & _ & _ & T & _).
  exists a'. split; [exact Run|]. exact (proj1 (T eq_refl)).
Defined.

(** ** The fallback tokenizer *)

Section TokenFacts.

Lemma all_chars_app (q : ascii -> bool) (x y : string) :
  all_chars q (x ++ y) = all_chars q x && all_chars q y.
Proof.
  induction x as [|c x IH]; simpl; [reflexivity|].
  rewrite IH. apply andb_assoc.
Qed.

Lemma lower_char_idem (c : ascii) : lower_char (lower_char c) = lower_char c.
Proof. destruct c as [[] [] [] [] [] [] [] []]; reflexivity. Qed.

Lemma lower_char_space (c : ascii) : is_space (lower_char c) = is_space c.
Proof. destruct c as [[] [] [] [] [] [] [] []]; reflexivity. Qed.

Lemma lower_idem (s : string) : lower (lower s) = lower s.
Proof.
  induction s as [|c s IH]; simpl; [reflexivity|].
  rewrite lower_char_idem, IH. reflexivity.
Qed.

Lemma lower_solid (s : string) : all_chars solid (lower s) = all_chars solid s.
Proof.
  induction s as [|c s IH]; simpl; [reflexivity|].
  unfold solid at 1 3. rewrite lower_char_space, IH. reflexivity.
Qed.

Lemma lower_fixed (s : string) :
  all_chars (fun c => Ascii.eqb (lower_char c) c) s = true -> lower s = s.
Proof.
  induction s as [|c s IH]; simpl; intro H; [reflexivity|].
  apply andb_true_iff in H. destruct H as [Hc Hs].
  apply Ascii.eqb_eq in Hc. rewrite Hc, (IH Hs). reflexivity.
Qed.

Lemma lower_all_fixed (s : string) :
  all_chars (fun c => Ascii.eqb (lower_char c) c) (lower s) = true.
Proof.
  induction s as [|c s IH]; simpl; [reflexivity|].
  rewrite lower_char_idem, Ascii.eqb_refl, IH. reflexivity.
Qed.

(** The pieces of a split are made of the characters of the text. *)
Lemma split_ws_from_chars (q : ascii -> bool) (s cur : string) :
  all_chars q cur = true -> all_chars q s = true ->
  forall w, In w (split_ws_from cur s) -> all_chars q w = true.
Proof.
  revert cur. induction s as [|c s IH]; intros cur Hcur Hs w Hin; simpl in *.
  - destruct (is_empty cur); [contradiction|].
    destruct Hin as [<- | []]. exact Hcur.
  - apply andb_true_iff in Hs. destruct Hs as [Hc Hs].
    destruct (is_space c).
    + destruct (is_empty cur).
      * exact (IH EmptyString eq_refl Hs w Hin).
      * destruct Hin as [<- | Hin]; [exact Hcur|].
        exact (IH EmptyString eq_refl Hs w Hin).
    + apply (IH (cur ++ String c EmptyString)); [|exact Hs | exact Hin].
      rewrite all_chars_app, Hcur. simpl. rewrite Hc. reflexivity.
Qed.

(** The pieces of a split are not empty and hold no blank. *)
Lemma split_ws_from_solid (s cur : string) :
  all_chars solid cur = true ->
  forall w, In w (split_ws_from cur s) ->
            w <> EmptyString /\ all_chars solid w = true.
Proof.
  revert cur. induction s as [|c s IH]; intros cur Hcur w Hin; simpl in *.
  - destruct cur as [|d cur]; [contradiction|].
    destruct Hin as [<- | []]. split; [discriminate | exact Hcur].
  - destruct (is_space c) eqn:Sp.
    + destruct cur as [|d cur]; cbn [is_empty] in Hin.
      * exact (IH EmptyString eq_refl w Hin).
      * destruct Hin as [<- | Hin]; [split; [discriminate | exact Hcur]|].
        exact (IH EmptyString eq_refl w Hin).
    + apply (IH (cur ++ String c EmptyString)); [|exact Hin].
      rewrite all_chars_app, Hcur. simpl. unfold solid. rewrite Sp. reflexivity.
Qed.

(** Stripping keeps a token free of blanks. *)
Lemma strip_solid (p : ascii -> bool) (s : string) :
  all_chars solid s = true -> all_chars solid (strip p s) = true.
Proof.
  intro H. destruct (strip_split p s) as (pre & post & Eq & _).
  rewrite Eq in H. rewrite !all_chars_app in H.
  apply andb_true_iff in H. destruct H as [_ H].
  apply andb_true_iff in H. destruct H as [H _]. exact H.
Qed.

Lemma solid_token_not_you_know (w : string) :
  all_chars solid w = true ->
  mem (strip_chars ".,!?" (lower w)) filler_words
  = mem (strip_chars ".,!?" (lower w))
        ["um"; "uh"; "like"; "so"; "actually"; "basically"; "literally";
         "well"; "okay"].
Proof.
  intro H.
  assert (S : all_chars solid (strip_chars ".,!?" (lower w)) = true).
  { apply strip_solid. rewrite lower_solid. exact H. }
  destruct (string_dec (strip_chars ".,!?" (lower w)) "you know") as [Eq | Ne].
  - rewrite Eq in S. discriminate S.
  - unfold mem, filler_words. cbn [existsb].
    apply String.eqb_neq in Ne. rewrite Ne. reflexivity.
Qed.

End TokenFacts.

(** X17.  When the tokenizer raises, the tokens [safe_tokenize] falls back
    to are the blank-separated words of the lowercased text: none is empty,
    none holds a blank, and lowercasing a token again changes nothing. *)
Theorem fallback_tokens_are_words (E : Collaborators) (text : string) :
  word_tokenize E (lower text) = None ->
  safe_tokenize E text = split_ws (lower text) /\
  forall w, In w (safe_tokenize E text) ->
            w <> EmptyString /\
            all_chars (fun c => negb (is_space c)) w = true /\
            lower w = w.
Proof.
  intro H. unfold safe_tokenize. rewrite H. split; [reflexivity|].
  intros w Hin. unfold split_ws in Hin.
  destruct (split_ws_from_solid (lower text) EmptyString eq_refl w Hin) as [Ne So].
  split; [exact Ne|]. split; [exact So|].
  apply lower_fixed.
  apply (split_ws_from_chars _ (lower text) EmptyString eq_refl
           (lower_all_fixed text) w Hin).
Qed.

Lemma fallback_tokens_are_words_witness :
  safe_tokenize offline "Hello,  World" = ["hello,"; "world"].
Proof.
  rewrite (proj1 (fallback_tokens_are_words offline "Hello,  World" eq_refl)).
  reflexivity.
Defined.

(** X18.  With the fallback tokens the lexicon entry "you know" never
    matches, since no token holds a blank: the filler count is the number of
    tokens that strip to one of the nine one-word entries. *)
Theorem you_know_never_counts (E : Collaborators) (text : string) :
  word_tokenize E (lower text) = None ->
  (forall w, In w (safe_tokenize E text) ->
             strip_chars ".,!?" (lower w) <> "you know") /\
  count_fillers (safe_tokenize E text)
  = List.length
      (filter (fun w => mem (strip_chars ".,!?" (lower w))
                            ["um"; "uh"; "like"; "so"; "actually"; "basically";
                             "literally"; "well"; "okay"])
              (safe_tokenize E text)).
Proof.
  intro H.
  assert (So : forall w, In w (safe_tokenize E text) -> all_chars solid w = true).
  { intros w Hin. unfold safe_tokenize in Hin. rewrite H in Hin.
    exact (proj2 (split_ws_from_solid (lower text) EmptyString eq_refl w Hin)). }
  split.
  - intros w Hin Eq. specialize (So w Hin).
    assert (S : all_chars solid (strip_chars ".,!?" (lower w)) = true).
    { apply strip_solid. rewrite lower_solid. exact So. }
    rewrite Eq in S. discriminate S.
  - unfold count_fillers. f_equal. apply filter_ext_in.
    intros w Hin. unfold is_filler.
    rewrite (solid_token_not_you_know w (So w Hin)). reflexivity.
Qed.

Lemma you_know_never_counts_witness :
  count_fillers (safe_tokenize offline "You know, it is like that") = 1%nat.
Proof.
  rewrite (proj2 (you_know_never_counts offline "You know, it is like that" eq_refl)).
  reflexivity.
Defined.

(** ** The upload filter *)

Section UploadFacts.

Lemma after_last_none (sep : ascii) (s : string) :
  after_last sep s = None <-> char_in sep s = false.
Proof.
  induction s as [|c s IH]; simpl; [split; reflexivity|].
  rewrite (Ascii.eqb_sym sep c).
  destruct (after_last sep s) as [ext|].
  - split; [discriminate|]. intro H. apply orb_false_iff in H.
    destruct H as [_ H]. apply IH in H. discriminate H.
  - destruct (Ascii.eqb c sep); [split; discriminate|].
    split; [intros _|reflexivity]. apply IH. reflexivity.
Qed.

Lemma after_last_some (sep : ascii) (s ext : string) :
  after_last sep s = Some ext <->
  exists base, s = base ++ String sep ext /\ char_in sep ext = false.
Proof.
  split.
  - revert ext. induction s as [|c s IH]; simpl; intros ext H; [discriminate|].
    destruct (after_last sep s) as [ext'|] eqn:A.
    + inversion H; subst ext'. destruct (IH ext eq_refl) as [base [Eq Hno]].
      exists (String c base). simpl. rewrite <- Eq. split; [reflexivity | exact Hno].
    + destruct (Ascii.eqb c sep) eqn:C; [|discriminate].
      inversion H; subst ext. apply Ascii.eqb_eq in C. subst c.
      exists EmptyString. split; [reflexivity|]. apply after_last_none. exact A.
  - intros [base [-> Hno]]. induction base as [|c base IH]; simpl.
    + apply after_last_none in Hno. rewrite Hno, Ascii.eqb_refl. reflexivity.
    + rewrite IH. reflexivity.
Qed.

End UploadFacts.

(** X19.  [allowed_file] accepts a name exactly when it reads
    [base.ext] where [ext] holds no further dot and, lowercased, is one of
    wav, mp3, ogg, m4a, flac: only the part after the last dot counts, and
    its case does not. *)
Theorem allowed_file_iff (filename : string) :
  allowed_file filename = true <->
  exists base ext,
    filename = base ++ "." ++ ext /\
    char_in "." ext = false /\
    In (lower ext) ALLOWED_EXTENSIONS.
Proof.
  unfold allowed_file. split.
  - intro H. apply andb_true_iff in H. destruct H as [_ H].
    destruct (after_last "." filename) as [ext|] eqn:A; [|discriminate].
    apply after_last_some in A. destruct A as [base [Eq Hno]].
    exists base, ext. split; [exact Eq|]. split; [exact Hno|].
    apply PyStrFacts.mem_In. exact H.
  - intros (base & ext & Eq & Hno & Hin).
    assert (A : after_last "." filename = Some ext).
    { apply after_last_some. exists base. split; [exact Eq | exact Hno]. }
    rewrite A. apply andb_true_iff. split.
    + destruct (char_in "." filename) eqn:C; [reflexivity|].
      apply after_last_none in C. rewrite C in A. discriminate A.
    + apply PyStrFacts.mem_In. exact Hin.
Qed.

(** ** Sentences and words *)

Section SplitFacts.

Lemma split_on_from_length (sep : ascii) (s cur : string) :
  List.length (split_on_from sep cur s) = S (count_char sep s).
Proof.
  revert cur. induction s as [|c s IH]; intro cur; simpl; [reflexivity|].
  destruct (Ascii.eqb c sep); simpl; rewrite IH; reflexivity.
Qed.

Lemma sentences_length (text : string) :
  (List.length (sentences text) <= S (count_char "." text))%nat.
Proof.
  unfold sentences, split_on. rewrite length_map.
  rewrite <- (split_on_from_length "." text EmptyString).
  apply filter_length_le.
Qed.

Lemma sentences_solid (text s : string) :
  In s (sentences text) -> s <> EmptyString /\ strip_ws s = s.
Proof.
  unfold sentences. intro H. apply in_map_iff in H.
  destruct H as [piece [<- Hin]]. apply filter_In in Hin.
  destruct Hin as [_ Hne]. split.
  - intro Z. rewrite Z in Hne. discriminate Hne.
  - unfold strip_ws, strip.
    destruct (rstrip_split is_space (lstrip is_space piece)) as [post [Eq _]].
    set (core := rstrip is_space (lstrip is_space piece)) in *.
    assert (L : lstrip is_space core = core).
    { destruct core as [|c core'] eqn:C; [reflexivity|].
      destruct (lstrip is_space piece) as [|d rest] eqn:P; [discriminate Eq|].
      simpl in Eq. inversion Eq; subst d.
      assert (Sp : is_space c = false).
      { destruct piece as [|x piece']; [discriminate P|].
        clear - P. revert P. generalize (String x piece'). intro t.
        induction t as [|y t IH]; simpl; [discriminate|].
        destruct (is_space y) eqn:Y; [exact IH|].
        intro H. inversion H; subst. exact Y. }
      simpl. rewrite Sp. reflexivity. }
    rewrite L.
    assert (R : forall t, rstrip is_space (rstrip is_space t) = rstrip is_space t).
    { clear. induction t as [|c t IH]; simpl; [reflexivity|].
      destruct (rstrip is_space t) as [|d r] eqn:Rt; cbn [is_empty andb].
      - destruct (is_space c) eqn:Sp; [reflexivity|].
        simpl. rewrite Sp. reflexivity.
      - cbn [rstrip]. cbn [rstrip] in IH. rewrite IH. reflexivity. }
    apply R.
Qed.

Lemma lower_app (x y : string) : lower (x ++ y) = lower x ++ lower y.
Proof.
  induction x as [|c x IH]; simpl; [reflexivity | rewrite IH; reflexivity].
Qed.

Lemma split_ws_from_lower (s cur : string) :
  split_ws_from (lower cur) (lower s) = map lower (split_ws_from cur s).
Proof.
  revert cur. induction s as [|c s IH]; intro cur; simpl.
  - destruct cur; reflexivity.
  - rewrite lower_char_space. destruct (is_space c).
    + destruct cur as [|d cur]; simpl.
      * exact (IH EmptyString).
      * f_equal. exact (IH EmptyString).
    + rewrite <- IH, lower_app. reflexivity.
Qed.

End SplitFacts.

(** X20.  The sentence count stored by [calculate_metrics] is at most one
    more than the number of full stops in the text; the pieces it counts are
    the non-blank ones between full stops, each trimmed of surrounding
    blanks. *)
Theorem sentence_count_bounded (E : Collaborators) (now : Q) (text : string)
    (a : Analyzer) :
  exists m,
    metrics (results (calculate_metrics E now text a)) = Some m /\
    sentence_count m = Nat.max 1 (List.length (sentences text)) /\
    (1 <= sentence_count m <= S (count_char "." text))%nat /\
    (forall s, In s (sentences text) -> s <> EmptyString /\ strip_ws s = s).
Proof.
  exists (full_metrics E (start_time a) now text). split; [reflexivity|].
  unfold full_metrics. cbv zeta. cbn [sentence_count].
  pose proof (sentences_length text) as L.
  assert (M : PyNum.max1 (List.length (sentences text))
              = Nat.max 1 (List.length (sentences text))).
  { unfold PyNum.max1. destruct (1 <? _)%nat eqn:C.
    - apply Nat.ltb_lt in C. lia.
    - apply Nat.ltb_ge in C. lia. }
  rewrite M. split; [reflexivity|]. split; [lia|].
  intros s. apply sentences_solid.
Qed.

(** X21.  When the tokenizer raises, the full metrics and the basic-metrics
    fallback agree on the word count of a text: lowercasing does not move
    the word boundaries. *)
Theorem fallback_word_counts_agree (E : Collaborators) (now : Q) (text : string)
    (a : Analyzer) :
  word_tokenize E (lower text) = None ->
  option_map word_count (metrics (results (calculate_metrics E now text a)))
  = option_map word_count (metrics (results (calculate_basic_metrics text a))) /\
  safe_tokenize E text = map lower (split_ws text).
Proof.
  intro H.
  assert (T : safe_tokenize E text = map lower (split_ws text)).
  { unfold safe_tokenize. rewrite H. unfold split_ws.
    exact (split_ws_from_lower text EmptyString). }
  split; [|exact T].
  cbn [calculate_metrics calculate_basic_metrics with_results set_metrics
       results metrics option_map full_metrics basic_metrics word_count].
  rewrite T, length_map. f_equal.
  destruct text; reflexivity.
Qed.

Lemma fallback_word_counts_agree_witness :
  option_map word_count
    (metrics (results (calculate_metrics offline 0 "Good Morning class" (init false))))
  = Some 3%nat.
Proof.
  rewrite (proj1 (fallback_word_counts_agree offline 0 "Good Morning class"
                    (init false) eq_refl)).
  reflexivity.
Defined.
